(** * MLPAE: the multilayer-perceptron autoencoder detector of pygod

    A shallow embedding of [pygod/models/mlpae.py].  The class [MLPAE] is
    glue over PyTorch, PyTorch Geometric and scikit-learn: the embedding keeps
    the control flow, the attribute updates and the tensor arithmetic that the
    file itself writes down, and takes the library calls (layer construction,
    forward pass, automatic differentiation, Adam, ROC-AUC) as an interface.

    Tensor entries are kept abstract (class [Scalar]): no law of arithmetic is
    assumed, so every statement below holds for floating-point numbers as well
    as for rationals.  Sums are taken left to right. *)

From Stdlib Require Import String Bool QArith ZArith List Lia.
Import ListNotations.

Set Implicit Arguments.
Local Open Scope Z_scope.

(** ** Scalars and tensors *)

Class Scalar (A : Type) := {
  fzero : A;
  fadd : A -> A -> A;
  fsub : A -> A -> A;
  fmul : A -> A -> A;
  fdiv : A -> A -> A;
  of_nat : nat -> A
}.

(** A two-dimensional tensor: [shape = (length rows, cols)]. *)
Record Tensor (A : Type) := mkTensor {
  cols : nat;
  rows : list (list A)
}.

Definition shape0 {A} (t : Tensor A) : nat := length (rows t).
Definition shape1 {A} (t : Tensor A) : nat := cols t.

Definition wf_tensor {A} (t : Tensor A) : Prop :=
  Forall (fun r => length r = cols t) (rows t).

Definition same_shape {A} (a b : Tensor A) : Prop :=
  shape0 a = shape0 b /\ shape1 a = shape1 b.

Fixpoint map2 {A B C} (f : A -> B -> C) (l : list A) (m : list B) : list C :=
  match l, m with
  | a :: l', b :: m' => f a b :: map2 f l' m'
  | _, _ => []
  end.

Section TensorOps.
Context {A : Type} `{Scalar A}.

(** [(input - target) ** 2], the pointwise term of [F.mse_loss]. *)
Definition sq_err (input target : A) : A :=
  fmul (fsub input target) (fsub input target).

Definition tsum (l : list A) : A := fold_left fadd l fzero.

(** [F.mse_loss(input, target, reduction='none')] on tensors of one shape. *)
Definition mse_loss_none (input target : Tensor A) : Tensor A :=
  {| cols := cols input;
     rows := map2 (map2 sq_err) (rows input) (rows target) |}.

(** [torch.mean(t, dim=1)]: one mean per row, over the second dimension. *)
Definition mean_dim1 (t : Tensor A) : list A :=
  map (fun r => fdiv (tsum r) (of_nat (shape1 t))) (rows t).

(** [torch.mean(t)]: the mean over all [shape0 * shape1] entries. *)
Definition mean_all (t : Tensor A) : A :=
  fdiv (tsum (concat (rows t))) (of_nat (shape0 t * shape1 t)).

(** [F.mse_loss(input, target)], default [reduction='mean']. *)
Definition mse_loss (input target : Tensor A) : A :=
  mean_all (mse_loss_none input target).

(** Entry [(i, j)] of a tensor. *)
Definition entry (t : Tensor A) (i j : nat) : A :=
  nth j (nth i (rows t) []) fzero.

(** [sum_n n f = f 0 + f 1 + ... + f (n-1)], added left to right. *)
Definition sum_n (n : nat) (f : nat -> A) : A := tsum (map f (seq 0 n)).

(** The reconstruction error of node [i]: the squared difference between
    the output row and the input row, averaged over the [d] features. *)
Definition recon_error (x_ x : Tensor A) (i : nat) : A :=
  fdiv (sum_n (shape1 x) (fun j => sq_err (entry x_ i j) (entry x i j)))
       (of_nat (shape1 x)).

End TensorOps.

(** ** Python exceptions and results *)

Inductive exn : Type :=
| AttributeError (msg : string)
| NotFittedError
| UnboundLocalError (var : string)
| LibraryError (msg : string).

Inductive result (A : Type) : Type :=
| Ok (a : A)
| Err (e : exn).
Arguments Ok {A} a.
Arguments Err {A} e.

Definition is_ok {A} (r : result A) : bool :=
  match r with Ok _ => true | Err _ => false end.

(** [range(n)] *)
Definition range (n : Z) : list Z := map Z.of_nat (seq 0 (Z.to_nat n)).

(** ** The object model *)

Inductive Device : Type :=
| cpu
| cuda (index : Z).

(** The types the libraries own.  [Rng] is the state the libraries keep
    between calls and that a call may read: torch's global random generator,
    which [torch.manual_seed] sets, and whatever else a call happens to
    read, such as memory that was allocated and never initialised. *)
Class Carriers := {
  F : Type;
  F_scalar :: Scalar F;
  Rng : Type;
  Params : Type;
  Opt : Type;
  Grads : Type;
  Labels : Type;
  Act : Type;
  Base : Type
}.

Section Model.
Context {C : Carriers}.

(** A [torch_geometric.data.Data] instance: node features and labels. *)
Record Data := mkData {
  G_x : Tensor F;
  G_y : Labels
}.

(** A [torch_geometric.nn.MLP] module: what it was built from, its
    learnable parameters and its train/eval flag. *)
Record MLP := mkMLP {
  channel_list : list Z;
  mlp_dropout : F;
  relu_first : bool;
  batch_norm : bool;
  params : Params;
  training : bool
}.

Definition set_training (b : bool) (m : MLP) : MLP :=
  {| channel_list := channel_list m; mlp_dropout := mlp_dropout m;
     relu_first := relu_first m; batch_norm := batch_norm m;
     params := params m; training := b |}.

Definition set_params (p : Params) (m : MLP) : MLP :=
  {| channel_list := channel_list m; mlp_dropout := mlp_dropout m;
     relu_first := relu_first m; batch_norm := batch_norm m;
     params := p; training := training m |}.

(** The instance attributes of [MLPAE].  [model = None] is Python's
    [None]; [decision_scores_ = None] means the attribute does not exist
    yet; [base] holds the attributes that belong to [BaseDetector]. *)
Record MLPAE := mkMLPAE {
  hid_dim : Z;
  num_layers : Z;
  dropout : F;
  weight_decay : F;
  act : option Act;
  lr : F;
  epoch : Z;
  device : Device;
  verbose : bool;
  model : option MLP;
  decision_scores_ : option (list F);
  base : Base
}.

Definition set_model (m : option MLP) (o : MLPAE) : MLPAE :=
  {| hid_dim := hid_dim o; num_layers := num_layers o; dropout := dropout o;
     weight_decay := weight_decay o; act := act o; lr := lr o;
     epoch := epoch o; device := device o; verbose := verbose o;
     model := m; decision_scores_ := decision_scores_ o; base := base o |}.

Definition set_decision_scores_ (s : list F) (o : MLPAE) : MLPAE :=
  {| hid_dim := hid_dim o; num_layers := num_layers o; dropout := dropout o;
     weight_decay := weight_decay o; act := act o; lr := lr o;
     epoch := epoch o; device := device o; verbose := verbose o;
     model := model o; decision_scores_ := Some s; base := base o |}.

(** The calls that leave the file, in the order they are made. *)
Inductive Event : Type :=
| EvMLP (channels : list Z) (p : F) (relu_first batch_norm : bool)
| EvAdam (lr weight_decay : F)
| EvTrain
| EvEval
| EvForward (x_ : Tensor F)
| EvZeroGrad
| EvBackward (loss : F)
| EvStep
| EvAuc (labels : Labels) (score : list F)
| EvPrint (epoch : Z) (loss auc : F).

(** The interpreter state: the instance, the library state (the global
    random generator and the rest) and the calls made so far. *)
Record State := mkState {
  self : MLPAE;
  rng : Rng;
  trace : list Event
}.
End Model.

(** ** The library interface

    What [mlpae.py] calls and does not define.  Constructors, the forward
    pass, the metric and the base-class methods may raise; a call that raises
    returns [Err]. *)
Class Externals {C : Carriers} := {
  (** [torch.cuda.is_available()] *)
  cuda_is_available : bool;
  (** [torch.manual_seed(seed)]: sets the generator and leaves the rest of
      the library state as it is. *)
  manual_seed : Z -> Rng -> Rng;
  (** [MLP(channel_list=, dropout=, relu_first=, batch_norm=)]: takes the
      initial weights from the library state -- from the generator, and
      for parameters it does not initialise from whatever memory holds. *)
  MLP_new : list Z -> F -> bool -> bool -> Rng -> result (Params * Rng);
  (** [torch.optim.Adam(params, lr=, weight_decay=)] *)
  Adam_new : Params -> F -> F -> result Opt;
  (** [module(x)]: in training mode dropout draws from the generator. *)
  forward : MLP -> Rng -> Tensor F -> result (Tensor F * Rng);
  (** [zero_grad()] then [loss.backward()]: the gradient, with respect to the
      parameters, of the loss seen as a function of the module's output. *)
  backward : MLP -> Rng -> Tensor F -> (Tensor F -> F) -> Grads;
  (** [optimizer.step()] *)
  Adam_step : Opt -> Params -> Grads -> Opt * Params;
  (** [sklearn.metrics.roc_auc_score(y_true, y_score)] *)
  roc_auc_score : Labels -> list F -> result F;
  (** [BaseDetector.__init__(contamination=)] *)
  BaseDetector_init : F -> result Base;
  (** [hasattr] on the attributes that [BaseDetector] owns. *)
  base_hasattr : Base -> string -> bool;
  (** [BaseDetector._process_decision_scores(self)] *)
  _process_decision_scores : MLPAE -> result MLPAE
}.

(** ** A state-and-exception monad for method bodies

    An exception keeps the state reached so far: attributes assigned before
    the [raise] stay assigned. *)
Section Monad.
Context {C : Carriers}.

Definition M (A : Type) : Type := State -> State * result A.

Definition ret {A} (a : A) : M A := fun st => (st, Ok a).

Definition bind {A B} (m : M A) (k : A -> M B) : M B :=
  fun st =>
    match m st with
    | (st', Ok a) => k a st'
    | (st', Err e) => (st', Err e)
    end.

Definition raise {A} (e : exn) : M A := fun st => (st, Err e).

Definition lift {A} (r : result A) : M A := fun st => (st, r).

Definition get_self : M MLPAE := fun st => (st, Ok (self st)).

Definition get_rng : M Rng := fun st => (st, Ok (rng st)).

Definition set_self (o : MLPAE) : M unit :=
  fun st => ({| self := o; rng := rng st; trace := trace st |}, Ok tt).

Definition set_rng (r : Rng) : M unit :=
  fun st => ({| self := self st; rng := r; trace := trace st |}, Ok tt).

Definition emit (e : Event) : M unit :=
  fun st =>
    ({| self := self st; rng := rng st; trace := trace st ++ [e] |}, Ok tt).

(** [for i in l: acc = body(i, acc)] *)
Fixpoint for_each {L} (l : list Z) (body : Z -> L -> M L) (acc : L) : M L :=
  match l with
  | [] => ret acc
  | i :: l' => bind (body i acc) (for_each l' body)
  end.
End Monad.

Notation "x <- c ;; k" := (bind c (fun x => k))
  (at level 100, c at next level, right associativity).
Notation "' p <- c ;; k" := (bind c (fun v => match v with p => k end))
  (at level 100, p pattern, c at next level, right associativity).
Notation "c ;;; k" := (bind c (fun _ => k))
  (at level 100, right associativity).

(** ** The methods of [MLPAE] *)
Section Methods.
Context {C : Carriers} {E : Externals}.

(** [MLPAE.__init__]; the device is chosen once, here. *)
Definition __init__ (hid_dim num_layers : Z) (dropout weight_decay : F)
    (act : option Act) (contamination lr : F) (epoch gpu : Z)
    (verbose : bool) : result MLPAE :=
  match BaseDetector_init contamination with
  | Err e => Err e
  | Ok b =>
      Ok {| hid_dim := hid_dim;
            num_layers := num_layers;
            dropout := dropout;
            weight_decay := weight_decay;
            act := act;
            lr := lr;
            epoch := epoch;
            device := if (gpu >=? 0) && cuda_is_available
                      then cuda gpu else cpu;
            verbose := verbose;
            model := None;
            decision_scores_ := None;
            base := b |}
  end.

(** [tensor.to(device)] moves the storage and keeps the values. *)
Definition to (d : Device) (t : Tensor F) : Tensor F := t.

Definition process_graph (G : Data) : M (Tensor F * Labels) :=
  o <- get_self ;;
  let x := to (device o) (G_x G) in
  let y := G_y G in
  ret (x, y).

(** [hasattr(self, name)]: [__init__] assigns every hyperparameter and
    [model]; [decision_scores_] appears with [fit]; any other name is
    looked up among the base-class attributes. *)
Definition own_attributes : list string :=
  ["hid_dim"; "num_layers"; "dropout"; "weight_decay"; "act"; "lr";
   "epoch"; "device"; "verbose"; "model"; "fit"; "decision_function";
   "process_graph"]%string.

Definition hasattr (o : MLPAE) (name : string) : bool :=
  if existsb (String.eqb name) own_attributes then true
  else if String.eqb name "decision_scores_" then
    match decision_scores_ o with Some _ => true | None => false end
  else base_hasattr (base o) name.

(** [sklearn.utils.validation.check_is_fitted(estimator, attributes)]:
    with a list of attributes, the estimator counts as fitted when
    [hasattr] holds for all of them. *)
Definition check_is_fitted (attributes : list string) : M unit :=
  o <- get_self ;;
  if forallb (hasattr o) attributes then ret tt else raise NotFittedError.

(** The object behind [self.model], for a method call [self.model.<meth>]. *)
Definition model_attr (meth : string) : M MLP :=
  o <- get_self ;;
  match model o with
  | Some m => ret m
  | None =>
      raise (AttributeError
               ("'NoneType' object has no attribute '" ++ meth ++ "'"))
  end.

Definition update_model (f : MLP -> MLP) : M unit :=
  o <- get_self ;;
  match model o with
  | Some m => set_self (set_model (Some (f m)) o)
  | None => ret tt
  end.

(** [self.model.train()] *)
Definition model_train : M unit :=
  _ <- model_attr "train" ;;
  emit EvTrain ;;;
  update_model (set_training true).

(** [self.model.eval()] *)
Definition model_eval : M unit :=
  _ <- model_attr "eval" ;;
  emit EvEval ;;;
  update_model (set_training false).

(** [self.model(x)] *)
Definition model_call (x : Tensor F) : M (Tensor F) :=
  m <- model_attr "__call__" ;;
  r <- get_rng ;;
  '(x_, r') <- lift (forward m r x) ;;
  set_rng r' ;;;
  emit (EvForward x_) ;;;
  ret x_.

(** The local variables of [fit] that live across loop iterations;
    [score = None] is a name not yet bound. *)
Record Locals := mkLocals {
  optimizer : Opt;
  score : option (list F)
}.

(** Lines 104-107: the layer sizes. *)
Definition build_channel_list (x : Tensor F) (o : MLPAE) : list Z :=
  let channel_list := [Z.of_nat (shape1 x)] in
  let channel_list :=
    fold_left (fun cl _ => cl ++ [hid_dim o]) (range (num_layers o - 1))
              channel_list in
  channel_list ++ [Z.of_nat (shape1 x)].

(** Lines 127-141: one pass of the training loop. *)
Definition fit_epoch (x : Tensor F) (labels : Labels) (epoch : Z)
    (loc : Locals) : M Locals :=
  model_train ;;;
  (* the module and generator state that the forward pass starts from:
     the optimizer updates this same module in place *)
  m <- model_attr "__call__" ;;
  r <- get_rng ;;
  x_ <- model_call x ;;
  let loss := mse_loss x_ x in
  emit EvZeroGrad ;;;
  emit (EvBackward loss) ;;;
  let grads := backward m r x (fun out => mse_loss out x) in
  emit EvStep ;;;
  let '(opt', p') := Adam_step (optimizer loc) (params m) grads in
  update_model (set_params p') ;;;
  let score := mean_dim1 (mse_loss_none x_ x) in
  o <- get_self ;;
  (if verbose o then
     emit (EvAuc labels score) ;;;
     auc <- lift (roc_auc_score labels score) ;;
     emit (EvPrint epoch loss auc)
   else ret tt) ;;;
  ret {| optimizer := opt'; score := Some score |}.

Definition fit (G : Data) : M unit :=
  '(x, labels) <- process_graph G ;;
  o <- get_self ;;
  let channel_list := build_channel_list x o in
  let relu_first :=
    match act o with Some _ => true | None => false end in
  emit (EvMLP channel_list (dropout o) relu_first false) ;;;
  r <- get_rng ;;
  '(p, r') <- lift (MLP_new channel_list (dropout o) relu_first false r) ;;
  set_rng r' ;;;
  set_self (set_model
              (Some {| channel_list := channel_list;
                       mlp_dropout := dropout o;
                       relu_first := relu_first;
                       batch_norm := false;
                       params := p;
                       training := true |}) o) ;;;
  emit (EvAdam (lr o) (weight_decay o)) ;;;
  opt <- lift (Adam_new p (lr o) (weight_decay o)) ;;
  o <- get_self ;;
  loc <- for_each (range (epoch o)) (fit_epoch x labels)
                  {| optimizer := opt; score := None |} ;;
  match score loc with
  | None => raise (UnboundLocalError "score")
  | Some s =>
      o <- get_self ;;
      set_self (set_decision_scores_ s o) ;;;
      o <- get_self ;;
      o' <- lift (_process_decision_scores o) ;;
      set_self o'
  end.

Definition decision_function (G : Data) : M (list F) :=
  check_is_fitted ["model"%string] ;;;
  model_eval ;;;
  '(x, _) <- process_graph G ;;
  o <- get_self ;;
  let x := to (device o) x in
  x_ <- model_call x ;;
  let outlier_scores := mean_dim1 (mse_loss_none x_ x) in
  ret outlier_scores.
End Methods.

(** ** A small executable instance

    Rational entries, a one-weight "network" that scales its input, a
    finite-difference gradient and a plain descent step.  It is used to run
    the methods on concrete graphs. *)
Module Toy.
(** Rationals, kept in lowest terms. *)
#[export] Instance Q_scalar : Scalar Q := {|
  fzero := 0%Q;
  fadd := fun a b => Qred (a + b);
  fsub := fun a b => Qred (a - b);
  fmul := fun a b => Qred (a * b);
  fdiv := fun a b => Qred (a / b);
  of_nat := fun n => inject_Z (Z.of_nat n)
|}.

Record base_attrs := mkBase {
  contamination : Q;
  threshold_ : option Q
}.

#[export] Instance carriers : Carriers := {|
  F := Q;
  F_scalar := Q_scalar;
  Rng := nat;
  Params := Q;
  Opt := nat;
  Grads := Q;
  Labels := list bool;
  Act := unit;
  Base := base_attrs
|}.

Definition scale (w : Q) (x : Tensor Q) : Tensor Q :=
  {| cols := cols x; rows := map (map (fmul w)) (rows x) |}.

(** Dropout is not simulated; a training-mode pass still advances the
    generator. *)
Definition toy_forward (m : MLP) (r : nat) (x : Tensor Q)
    : result (Tensor Q * nat) :=
  if Z.of_nat (shape1 x) =? hd 0 (channel_list m)
  then Ok (scale (params m) x, if training m then S r else r)
  else Err (LibraryError "mat1 and mat2 shapes cannot be multiplied").

Definition toy_backward (m : MLP) (r : nat) (x : Tensor Q)
    (L : Tensor Q -> Q) : Q :=
  fsub (L (scale (fadd (params m) 1%Q) x)) (L (scale (params m) x)).

Definition count_pairs (pos neg : list Q) : Q :=
  tsum (map (fun p =>
               tsum (map (fun n =>
                            if Qlt_le_dec n p then 1%Q
                            else if Qeq_bool n p then (1 # 2)%Q else 0%Q)
                         neg))
            pos).

Definition select (b : bool) (labels : list bool) (s : list Q) : list Q :=
  map snd (filter (fun p => Bool.eqb (fst p) b) (combine labels s)).

Definition toy_auc (labels : list bool) (s : list Q) : result Q :=
  let pos := select true labels s in
  let neg := select false labels s in
  match pos, neg with
  | _ :: _, _ :: _ =>
      Ok (Qred (count_pairs pos neg
                / inject_Z (Z.of_nat (length pos * length neg))))
  | _, _ => Err (LibraryError "Only one class present in y_true")
  end.

Definition qmax (a b : Q) : Q := if Qlt_le_dec a b then b else a.

Definition toy_process (o : MLPAE) : result MLPAE :=
  match decision_scores_ o with
  | None => Err (AttributeError "decision_scores_")
  | Some s =>
      Ok {| hid_dim := hid_dim o; num_layers := num_layers o;
            dropout := dropout o; weight_decay := weight_decay o;
            act := act o; lr := lr o; epoch := epoch o;
            device := device o; verbose := verbose o; model := model o;
            decision_scores_ := decision_scores_ o;
            base := {| contamination := contamination (base o);
                       threshold_ := Some (fold_left qmax s 0%Q) |} |}
  end.

#[export] Instance externals : Externals := {|
  cuda_is_available := false;
  manual_seed := fun seed _ => Z.to_nat seed;
  MLP_new := fun cl p rf bn r =>
    if forallb (Z.ltb 0) cl then Ok ((1 # 4)%Q, S r)
    else Err (LibraryError "non-positive layer size");
  Adam_new := fun p lr wd =>
    if Qle_bool 0 lr then Ok O
    else Err (LibraryError "Invalid learning rate");
  forward := toy_forward;
  backward := toy_backward;
  Adam_step := fun opt p g => (S opt, fsub p (fmul (1 # 10)%Q g));
  roc_auc_score := toy_auc;
  BaseDetector_init := fun c =>
    if Qlt_le_dec 0 c then
      if Qle_bool c (1 # 2) then
        Ok {| contamination := c; threshold_ := None |}
      else Err (LibraryError "contamination must be in (0, 0.5]")
    else Err (LibraryError "contamination must be in (0, 0.5]");
  base_hasattr := fun b name =>
    if String.eqb name "contamination" then true
    else if String.eqb name "threshold_" then
      match threshold_ b with Some _ => true | None => false end
    else false;
  _process_decision_scores := toy_process
|}.
End Toy.

(** ** Vocabulary of the statements *)
Section Vocabulary.
Context {C : Carriers} {E : Externals}.

Definition is_EvMLP (e : Event) : bool :=
  match e with EvMLP _ _ _ _ => true | _ => false end.
Definition is_EvBackward (e : Event) : bool :=
  match e with EvBackward _ => true | _ => false end.
Definition is_EvTrain (e : Event) : bool :=
  match e with EvTrain => true | _ => false end.
Definition is_EvForward (e : Event) : bool :=
  match e with EvForward _ => true | _ => false end.
Definition is_EvStep (e : Event) : bool :=
  match e with EvStep => true | _ => false end.
Definition is_EvAuc (e : Event) : bool :=
  match e with EvAuc _ _ => true | _ => false end.
Definition is_EvPrint (e : Event) : bool :=
  match e with EvPrint _ _ _ => true | _ => false end.

Definition not_MLP (e : Event) : Prop := is_EvMLP e = false.

Definition count (p : Event -> bool) (evs : list Event) : nat :=
  length (filter p evs).

(** The calls of one loop iteration that ran to its end: [x_] is the
    output of its forward pass, [auc] the metric it printed (if any). *)
Definition epoch_block (verbose : bool) (x : Tensor F) (labels : Labels)
    (epoch : Z) (out : Tensor F * F) : list Event :=
  let '(x_, auc) := out in
  [EvTrain; EvForward x_; EvZeroGrad; EvBackward (mse_loss x_ x); EvStep]
  ++ (if verbose
      then [EvAuc labels (mean_dim1 (mse_loss_none x_ x));
            EvPrint epoch (mse_loss x_ x) auc]
      else []).



(** A computation only ever appends to the trace, and every call it
    appends satisfies [P]; this holds whether it returns or raises. *)
Definition emits {A} (P : Event -> Prop) (m : M A) : Prop :=
  forall st, exists evs,
    trace (fst (m st)) = trace st ++ evs /\ Forall P evs.

(** The pairs (forward output, printed metric) an iteration can yield. *)
Definition forward_output (x : Tensor F) (out : Tensor F * F) : Prop :=
  exists m r r', forward m r x = Ok (fst out, r').



(** [_process_decision_scores] derives base-class attributes and leaves
    the network and the scores as they are. *)
Definition process_frame : Prop :=
  forall o o',
    _process_decision_scores o = Ok o' ->
    model o' = model o /\ decision_scores_ o' = decision_scores_ o.

(** Two instances configured alike; the network, the scores and the
    base-class attributes may differ. *)
Definition same_hyperparameters (o1 o2 : MLPAE) : Prop :=
  hid_dim o1 = hid_dim o2 /\ num_layers o1 = num_layers o2 /\
  dropout o1 = dropout o2 /\ weight_decay o1 = weight_decay o2 /\
  act o1 = act o2 /\ lr o1 = lr o2 /\ epoch o1 = epoch o2 /\
  device o1 = device o2 /\ verbose o1 = verbose o2.

(** The loss [fit] hands to [backward], as a function of the output of the
    network: [F.mse_loss(x_, x)]. *)
Definition reconstruction_loss (x : Tensor F) : Tensor F -> F :=
  fun out => mse_loss out x.

(** Training as the claims describe it: [n] rounds, each one forward pass in
    training mode followed by one optimizer step on the gradient of the loss
    [L], from the network [m], the optimizer state [opt] and the library
    state [r].  The result is the network, the optimizer state and the
    library state after the last round, with the forward output of every
    round in order. *)
Fixpoint train_with (L : Tensor F -> F) (n : nat) (x : Tensor F) (m : MLP)
    (opt : Opt) (r : Rng) : result (MLP * Opt * Rng * list (Tensor F)) :=
  match n with
  | O => Ok (m, opt, r, [])
  | S n' =>
      let m1 := set_training true m in
      match forward m1 r x with
      | Err e => Err e
      | Ok (x_, r') =>
          let '(opt', p') :=
            Adam_step opt (params m1) (backward m1 r x L) in
          match train_with L n' x (set_params p' m1) opt' r' with
          | Err e => Err e
          | Ok (mE, optE, rE, outs) => Ok (mE, optE, rE, x_ :: outs)
          end
      end
  end.

(** The metric printed in an epoch is what [roc_auc_score] returned for the
    labels and the per-node errors of that epoch's forward output. *)
Definition auc_of (x : Tensor F) (labels : Labels) (x_ : Tensor F)
    (auc : F) : Prop :=
  roc_auc_score labels (mean_dim1 (mse_loss_none x_ x)) = Ok auc.

(** Two results that are both errors, and the same, or both values, and
    related. *)
Definition same_outcome {A} (Ra : A -> A -> Prop) (r1 r2 : result A)
    : Prop :=
  match r1, r2 with
  | Ok a1, Ok a2 => Ra a1 a2
  | Err e1, Err e2 => e1 = e2
  | _, _ => False
  end.

(** The library reads its state only through the generator: [R] relates
    two library states with the same generator state; seeding puts any two
    states in relation, and the constructor (for layers of positive width),
    the forward pass and the backward pass cannot tell related states
    apart. *)
Definition respects_generator (R : Rng -> Rng -> Prop) : Prop :=
  (forall seed h1 h2, R (manual_seed seed h1) (manual_seed seed h2)) /\
  (forall cl dr rf bn r1 r2,
     Forall (fun c => 0 < c) cl -> R r1 r2 ->
     same_outcome (fun a b => fst a = fst b /\ R (snd a) (snd b))
                  (MLP_new cl dr rf bn r1) (MLP_new cl dr rf bn r2)) /\
  (forall m r1 r2 x,
     R r1 r2 ->
     same_outcome (fun a b => fst a = fst b /\ R (snd a) (snd b))
                  (forward m r1 x) (forward m r2 x)) /\
  (forall m r1 r2 x L, R r1 r2 -> backward m r1 x L = backward m r2 x L).

(** Two interpreter states that the training loop cannot tell apart: same
    configuration, same network, related library states. *)
Definition agree_on (R : Rng -> Rng -> Prop) (st1 st2 : State) : Prop :=
  same_hyperparameters (self st1) (self st2) /\
  model (self st1) = model (self st2) /\
  R (rng st1) (rng st2).

(** [fit(G)] followed by [decision_function(G)]. *)
Definition fit_then_score (G : Data) : M (list F) :=
  fit G ;;; decision_function G.
End Vocabulary.

(** ** Concrete inputs *)
Module Fixtures.
Import Toy.

Definition x0 : Tensor Q :=
  {| cols := 2; rows := [[1; 2]; [3; 5]; [0; 1]]%Q |}.

Definition G0 : Data := {| G_x := x0; G_y := [false; true; false] |}.

(** [MLPAE(hid_dim=3, num_layers=4, dropout=0.3, weight_decay=0.,
    contamination=0.1, lr=5e-3, epoch=e, gpu=0, verbose=v)] *)
Definition new (v : bool) (e : Z) : result MLPAE :=
  __init__ 3 4 (3 # 10)%Q 0%Q (Some tt) (1 # 10)%Q (5 # 1000)%Q e 0 v.

Definition blank : MLPAE :=
  {| hid_dim := 0; num_layers := 0; dropout := 0%Q; weight_decay := 0%Q;
     act := None; lr := 0%Q; epoch := 0; device := cpu; verbose := false;
     model := None; decision_scores_ := None;
     base := {| contamination := 0%Q; threshold_ := None |} |}.

Definition start (v : bool) (e : Z) : State :=
  {| self := match new v e with Ok o => o | Err _ => blank end;
     rng := 0%nat;
     trace := [] |}.

(** The state after [fit(G0)] on a new instance. *)
Definition fitted (v : bool) (e : Z) : State := fst (fit G0 (start v e)).

(** The network of a state, for states that have one. *)
Definition network (st : State) : MLP :=
  match model (self st) with
  | Some m => m
  | None => {| channel_list := []; mlp_dropout := 0%Q; relu_first := false;
               batch_norm := false; params := 0%Q; training := false |}
  end.

(** A fitted instance about to be fitted again, the generator reseeded. *)
Definition refit (v : bool) (e : Z) : State :=
  {| self := self (fitted v e); rng := 0%nat; trace := trace (fitted v e) |}.
End Fixtures.

(** ** Further vocabulary: arithmetic laws and library conventions *)

(** An order on the scalars, with the laws that floating-point numbers
    obey: [finite] singles out the numbers that are neither infinite nor
    nan; [fle fzero a] says that [a] is a number (possibly infinite) and not
    negative.  The squared difference of two finite numbers, the sum of two
    non-negative numbers and the quotient of a non-negative number by a
    positive count are non-negative. *)
Class OrderedScalar (A : Type) `{Scalar A} := {
  finite : A -> Prop;
  fle : A -> A -> Prop;
  fle_zero : fle fzero fzero;
  fle_square_diff : forall a b,
    finite a -> finite b -> fle fzero (fmul (fsub a b) (fsub a b));
  fle_add : forall a b, fle fzero a -> fle fzero b -> fle fzero (fadd a b);
  fle_div : forall a n, fle fzero a -> fle fzero (fdiv a (of_nat (S n)))
}.

(** Arithmetic that is exact at zero: a number that is neither infinite
    nor nan ([is_number]) minus itself is zero, and zero times, plus and
    over a positive count is zero. *)
Class ExactScalar (A : Type) `{Scalar A} := {
  is_number : A -> Prop;
  fsub_diag : forall a, is_number a -> fsub a a = fzero;
  fmul_zero : fmul fzero fzero = fzero;
  fadd_zero : fadd fzero fzero = fzero;
  fdiv_zero : forall n, fdiv fzero (of_nat (S n)) = fzero
}.

Section MoreVocabulary.
Context {C : Carriers} {E : Externals}.

(** What a module was built from, as opposed to what it has learnt. *)
Definition config (m : MLP) : list Z * F * bool * bool :=
  (channel_list m, mlp_dropout m, relu_first m, batch_norm m).

(** The module [fit] installs before the first epoch, with the initial
    parameters [p] the constructor drew. *)
Definition new_network (x : Tensor F) (o : MLPAE) (p : Params) : MLP :=
  {| channel_list := build_channel_list x o;
     mlp_dropout := dropout o;
     relu_first := match act o with Some _ => true | None => false end;
     batch_norm := false;
     params := p;
     training := true |}.

(** The constructor call of [fit] on instance [o] and features [x]. *)
Definition new_network_call (x : Tensor F) (o : MLPAE) : Event :=
  EvMLP (build_channel_list x o) (dropout o)
        (match act o with Some _ => true | None => false end) false.

Definition MLP_new_for (x : Tensor F) (o : MLPAE) (r : Rng)
    : result (Params * Rng) :=
  MLP_new (build_channel_list x o) (dropout o)
          (match act o with Some _ => true | None => false end) false r.

(** In evaluation mode dropout is off: the forward pass leaves the random
    generator where it was. *)
Definition eval_keeps_rng : Prop :=
  forall m r x x_ r',
    training m = false -> forward m r x = Ok (x_, r') -> r' = r.

(** The forward pass has its own exceptions; it does not borrow
    scikit-learn's [NotFittedError]. *)
Definition forward_never_unfitted : Prop :=
  forall m r x, forward m r x <> Err NotFittedError.

(** The attributes of an instance other than its network. *)
Definition same_but_model (o1 o2 : MLPAE) : Prop :=
  exists mo, o2 = set_model mo o1.

(** Lines 143-144, after the loop: bind the scores, post-process them. *)
Definition store_scores (loc : Locals) : M unit :=
  match score loc with
  | None => raise (UnboundLocalError "score")
  | Some s =>
      o <- get_self ;;
      set_self (set_decision_scores_ s o) ;;;
      o <- get_self ;;
      o' <- lift (_process_decision_scores o) ;;
      set_self o'
  end.

(** The interpreter state when the training loop starts. *)
Definition ready (G : Data) (st : State) (p : Params) (r' : Rng) : State :=
  {| self := set_model (Some (new_network (G_x G) (self st) p)) (self st);
     rng := r';
     trace := trace st
              ++ [new_network_call (G_x G) (self st);
                  EvAdam (lr (self st)) (weight_decay (self st))] |}.

(** Every entry of a tensor satisfies [P]. *)
Definition entries (P : F -> Prop) (t : Tensor F) : Prop :=
  Forall (Forall P) (rows t).
End MoreVocabulary.

(** ** More concrete inputs *)
Module MoreFixtures.
Import Toy Fixtures.

(** [MLPAE(hid_dim=hid, lr=lrate, epoch=e, verbose=v)], other arguments as
    in [new]. *)
Definition custom (hid : Z) (lrate : Q) (v : bool) (e : Z) : State :=
  {| self := match __init__ hid 4 (3 # 10)%Q 0%Q (Some tt) (1 # 10)%Q
                            lrate e 0 v with
             | Ok o => o
             | Err _ => blank
             end;
     rng := 0%nat;
     trace := [] |}.

(** The graph [G0] with every node labelled normal. *)
Definition G_one_class : Data :=
  {| G_x := x0; G_y := [false; false; false] |}.

(** The graph [G0] with other labels. *)
Definition G_relabelled : Data :=
  {| G_x := x0; G_y := [true; false; true] |}.

(** A graph whose features have three dimensions, not two. *)
Definition G_wide : Data :=
  {| G_x := {| cols := 3; rows := [[1; 2; 3]]%Q |}; G_y := [false] |}.

(** A detector whose network copies its input. *)
Definition copying : State :=
  {| self := set_model (Some (set_params 1%Q (network (fitted false 2))))
                       (self (fitted false 2));
     rng := 0%nat;
     trace := [] |}.
End MoreFixtures.

(** ** A library that leaves parameters uninitialised

    As the executable instance above, except that the library state is a
    pair: the counter of the generator and the word that freshly allocated
    memory happens to hold.  Seeding sets the counter.  A constructor given
    a layer of width zero does not initialise its parameters: they are what
    memory held. *)
Module Leaky.
Import Toy.

Definition carriers : Carriers := {|
  F := Q;
  F_scalar := Q_scalar;
  Rng := nat * Q;
  Params := Q;
  Opt := nat;
  Grads := Q;
  Labels := list bool;
  Act := unit;
  Base := base_attrs
|}.

Definition leaky_forward (m : @MLP carriers) (r : nat * Q) (x : Tensor Q)
    : result (Tensor Q * (nat * Q)) :=
  if Z.of_nat (shape1 x) =? hd 0 (@channel_list carriers m)
  then Ok (scale (@params carriers m) x,
           if @training carriers m then (S (fst r), snd r) else r)
  else Err (LibraryError "mat1 and mat2 shapes cannot be multiplied").

Definition leaky_backward (m : @MLP carriers) (r : nat * Q) (x : Tensor Q)
    (L : Tensor Q -> Q) : Q :=
  fsub (L (scale (fadd (@params carriers m) 1%Q) x))
       (L (scale (@params carriers m) x)).

Definition leaky_process (o : @MLPAE carriers) : result (@MLPAE carriers) :=
  match @decision_scores_ carriers o with
  | None => Err (AttributeError "decision_scores_")
  | Some s =>
      Ok (@mkMLPAE carriers
            (@hid_dim carriers o) (@num_layers carriers o)
            (@dropout carriers o) (@weight_decay carriers o)
            (@act carriers o) (@lr carriers o) (@epoch carriers o)
            (@device carriers o) (@verbose carriers o) (@model carriers o)
            (@decision_scores_ carriers o)
            {| contamination := contamination (@base carriers o);
               threshold_ := Some (fold_left qmax s 0%Q) |})
  end.

Definition externals : @Externals carriers := {|
  cuda_is_available := false;
  manual_seed := fun seed (r : @Rng carriers) =>
    ((Z.to_nat seed, snd r) : @Rng carriers);
  MLP_new := fun cl p rf bn (r : @Rng carriers) =>
    if forallb (Z.ltb 0) cl
    then Ok ((1 # 4)%Q : @Params carriers, (S (fst r), snd r))
    else if forallb (Z.leb 0) cl
    then Ok (snd r, (S (fst r), snd r))
    else Err (LibraryError "negative layer size");
  Adam_new := fun p lr wd =>
    if Qle_bool 0 lr then Ok (O : @Opt carriers)
    else Err (LibraryError "Invalid learning rate");
  forward := leaky_forward;
  backward := leaky_backward;
  Adam_step := fun (opt : @Opt carriers) p g =>
    ((S opt, fsub p (fmul (1 # 10)%Q g)) : @Opt carriers * @Params carriers);
  roc_auc_score := toy_auc;
  BaseDetector_init := fun c =>
    Ok ({| contamination := c; threshold_ := None |} : @Base carriers);
  base_hasattr := fun b name => String.eqb name "contamination";
  _process_decision_scores := leaky_process
|}.

(** [MLPAE(hid_dim=0, num_layers=4, epoch=2, verbose=False)]. *)
Definition detector : @MLPAE carriers :=
  @mkMLPAE carriers 0 4 (3 # 10)%Q 0%Q (Some tt) (5 # 1000)%Q 2 cpu false
           None None {| contamination := (1 # 10)%Q; threshold_ := None |}.

Definition graph : @Data carriers :=
  @mkData carriers
    {| cols := 2; rows := [[1; 2]; [3; 5]; [0; 1]]%Q |}
    [false; true; false].

(** A new detector, right after [torch.manual_seed(7)], in a process whose
    free memory holds [junk]. *)
Definition seeded (junk : Q) : @State carriers :=
  @mkState carriers detector
    (@manual_seed carriers externals 7 (0%nat, junk)) [].

Definition run (junk : Q) : result (list Q) :=
  snd (@fit_then_score carriers externals graph (seeded junk)).
End Leaky.

(** * Properties *)

(** ** Tensor arithmetic *)
Section TensorFacts.
Context {A : Type} `{Scalar A}.

Lemma map2_length {X Y Z0} (f : X -> Y -> Z0) (l : list X) (m : list Y) :
  length l = length m -> length (map2 f l m) = length m.
Proof.
  revert m; induction l as [|a l IH]; intros [|b m] E; simpl in *;
    try discriminate; auto.
Qed.

Lemma map2_nth {X Y Z0} (f : X -> Y -> Z0) (l : list X) (m : list Y)
    (i : nat) (dx : X) (dy : Y) (dz : Z0) :
  length l = length m -> (i < length m)%nat ->
  nth i (map2 f l m) dz = f (nth i l dx) (nth i m dy).
Proof.
  revert m i; induction l as [|a l IH]; intros [|b m] i E Hi; simpl in *;
    try discriminate; try lia.
  destruct i as [|i]; [reflexivity|]. apply IH; lia.
Qed.

(** A list is the table of its entries. *)
Lemma map_nth_seq {X} (l : list X) (d : X) :
  map (fun j => nth j l d) (seq 0 (length l)) = l.
Proof.
  induction l as [|a l IH]; [reflexivity|].
  simpl. f_equal. rewrite <- seq_shift, map_map. exact IH.
Qed.

Lemma map2_as_table {X Y Z0} (f : X -> Y -> Z0) (l : list X) (m : list Y)
    (dx : X) (dy : Y) :
  length l = length m ->
  map2 f l m = map (fun j => f (nth j l dx) (nth j m dy)) (seq 0 (length m)).
Proof.
  revert m; induction l as [|a l IH]; intros [|b m] E; simpl in *;
    try discriminate; [reflexivity|].
  f_equal. rewrite <- seq_shift, map_map. apply IH. lia.
Qed.

Lemma wf_row (t : Tensor A) (i : nat) :
  wf_tensor t -> (i < shape0 t)%nat -> length (nth i (rows t) []) = cols t.
Proof.
  unfold wf_tensor, shape0. intros W Hi.
  rewrite Forall_forall in W. apply W. apply nth_In. exact Hi.
Qed.

(** Row [i] of the pointwise squared error, summed: the sum over the
    feature index. *)
Lemma row_sq_err_sum (x_ x : Tensor A) (i : nat) :
  wf_tensor x_ -> wf_tensor x -> same_shape x_ x -> (i < shape0 x)%nat ->
  tsum (nth i (rows (mse_loss_none x_ x)) []) =
  sum_n (shape1 x) (fun j => sq_err (entry x_ i j) (entry x i j)).
Proof.
  intros W_ W [S0 S1] Hi. unfold mse_loss_none, sum_n, entry; simpl.
  unfold shape0, shape1 in *.
  rewrite (map2_nth (map2 sq_err) (rows x_) (rows x) [] [] []) by lia.
  assert (L_ : length (nth i (rows x_) []) = cols x)
    by (rewrite <- S1; apply wf_row; unfold shape0; [assumption | lia]).
  assert (L : length (nth i (rows x) []) = cols x)
    by (apply wf_row; assumption).
  rewrite (map2_as_table sq_err _ _ fzero fzero) by congruence.
  rewrite L. reflexivity.
Qed.

Lemma mean_dim1_length (x_ x : Tensor A) :
  same_shape x_ x -> length (mean_dim1 (mse_loss_none x_ x)) = shape0 x.
Proof.
  intros [S0 _]. unfold mean_dim1, mse_loss_none, shape0 in *; simpl.
  rewrite length_map. apply map2_length. exact S0.
Qed.

Lemma mean_dim1_nth (x_ x : Tensor A) (i : nat) (d : A) :
  wf_tensor x_ -> wf_tensor x -> same_shape x_ x -> (i < shape0 x)%nat ->
  nth i (mean_dim1 (mse_loss_none x_ x)) d = recon_error x_ x i.
Proof.
  intros W_ W S Hi. unfold recon_error.
  rewrite <- (row_sq_err_sum W_ W S Hi).
  unfold mean_dim1.
  assert (Hl : (i < length (rows (mse_loss_none x_ x)))%nat).
  { destruct S as [S0 _]. unfold mse_loss_none, shape0 in *; simpl.
    rewrite map2_length; assumption. }
  set (n := of_nat (shape1 (mse_loss_none x_ x))).
  rewrite (nth_indep _ d (fdiv (tsum []) n))
    by (rewrite length_map; exact Hl).
  rewrite (map_nth (fun r => fdiv (tsum r) n)). subst n.
  destruct S as [_ S1]. unfold shape1 in *. simpl. rewrite S1. reflexivity.
Qed.

End TensorFacts.

(** ** The monad *)
Section MonadFacts.
Context {C : Carriers}.

Lemma bind_ok {A B} (m : M A) (k : A -> M B) st st' b :
  bind m k st = (st', Ok b) ->
  exists a st1, m st = (st1, Ok a) /\ k a st1 = (st', Ok b).
Proof.
  unfold bind. destruct (m st) as [st1 [a|e]]; intros Hk.
  - exists a, st1. split; [reflexivity | exact Hk].
  - discriminate.
Qed.

Section Emits.
Variable P : Event -> Prop.

Lemma emits_pure {A} (a : result A) : emits P (fun st => (st, a)).
Proof. intros st. exists []. simpl. now rewrite app_nil_r. Qed.

Lemma emits_ret {A} (a : A) : emits P (ret a).
Proof. apply emits_pure. Qed.

Lemma emits_raise {A} (e : exn) : emits P (@raise _ A e).
Proof. apply emits_pure. Qed.

Lemma emits_lift {A} (r : result A) : emits P (lift r).
Proof. apply emits_pure. Qed.

Lemma emits_get_self : emits P get_self.
Proof. intros st. exists []. simpl. now rewrite app_nil_r. Qed.

Lemma emits_get_rng : emits P get_rng.
Proof. intros st. exists []. simpl. now rewrite app_nil_r. Qed.

Lemma emits_set_self o : emits P (set_self o).
Proof. intros st. exists []. simpl. now rewrite app_nil_r. Qed.

Lemma emits_set_rng r : emits P (set_rng r).
Proof. intros st. exists []. simpl. now rewrite app_nil_r. Qed.

Lemma emits_emit e : P e -> emits P (emit e).
Proof. intros He st. exists [e]. split; [reflexivity | auto]. Qed.

Lemma emits_bind {A B} (m : M A) (k : A -> M B) :
  emits P m -> (forall a, emits P (k a)) -> emits P (bind m k).
Proof.
  intros Hm Hk st. unfold bind.
  destruct (Hm st) as (ev1 & H1 & F1).
  destruct (m st) as [st1 [a|e]]; simpl in H1.
  - destruct (Hk a st1) as (ev2 & H2 & F2). exists (ev1 ++ ev2).
    rewrite H2, H1. split; [now rewrite app_assoc|].
    apply Forall_app; auto.
  - exists ev1. auto.
Qed.

Lemma emits_for_each {L} (l : list Z) (body : Z -> L -> M L) :
  (forall i acc, emits P (body i acc)) ->
  forall acc, emits P (for_each l body acc).
Proof.
  intros Hb. induction l as [|i l IH]; intros acc; simpl.
  - apply emits_ret.
  - apply emits_bind; [apply Hb | exact IH].
Qed.
End Emits.
End MonadFacts.

Create HintDb emits_db.
#[export] Hint Resolve emits_ret emits_raise emits_lift emits_get_self
  emits_get_rng emits_set_self emits_set_rng : emits_db.

Ltac emits_step :=
  match goal with
  | |- emits _ (bind _ _) => apply emits_bind; [| intros]
  | |- emits _ (for_each _ _ _) => apply emits_for_each; intros
  | |- emits _ (emit _) => apply emits_emit; reflexivity
  | |- emits _ (match ?x with _ => _ end) => destruct x
  | |- emits _ (if ?b then _ else _) => destruct b
  | |- emits _ _ => solve [auto with emits_db]
  end.

(** ** The methods, step by step *)
Section MethodFacts.
Context {C : Carriers} {E : Externals}.

Lemma emits_model_attr meth : emits not_MLP (model_attr meth).
Proof. unfold model_attr. repeat emits_step. Qed.

Lemma emits_update_model f : emits not_MLP (update_model f).
Proof. unfold update_model. repeat emits_step. Qed.

Hint Resolve emits_model_attr emits_update_model : emits_db.

Lemma emits_model_call x : emits not_MLP (model_call x).
Proof. unfold model_call. repeat emits_step. Qed.

Lemma emits_model_train : emits not_MLP model_train.
Proof. unfold model_train. repeat emits_step. Qed.

Hint Resolve emits_model_call emits_model_train : emits_db.



Lemma range_length n : length (range n) = Z.to_nat n.
Proof. unfold range. now rewrite length_map, length_seq. Qed.


(** One iteration that runs to its end. *)
Lemma fit_epoch_ok x labels ep loc st st' loc' :
  fit_epoch x labels ep loc st = (st', Ok loc') ->
  exists m m' x_ r' auc,
    model (self st) = Some m /\
    forward (set_training true m) (rng st) x = Ok (x_, r') /\
    trace st' =
      trace st ++ epoch_block (verbose (self st)) x labels ep (x_, auc) /\
    score loc' = Some (mean_dim1 (mse_loss_none x_ x)) /\
    self st' = set_model (Some m') (self st).
Proof.
  unfold fit_epoch, model_train, model_call, model_attr, update_model,
    bind, get_self, get_rng, set_self, set_rng, emit, lift, ret, raise.
  destruct st as [o r t]; simpl.
  destruct (model o) as [m|] eqn:Hm; simpl; [|discriminate].
  rewrite Hm; simpl.
  destruct (forward (set_training true m) r x) as [[x_ r']|e] eqn:Hf;
    simpl; [|discriminate].
  destruct (Adam_step _ _ _) as [opt' p']. simpl.
  destruct (verbose o) eqn:Hv; simpl.
  - destruct (roc_auc_score labels (mean_dim1 (mse_loss_none x_ x)))
      as [auc|e] eqn:Ha; simpl; [|discriminate].
    intros H; inversion H; subst; clear H.
    exists m, (set_params p' (set_training true m)), x_, r', auc. simpl.
    repeat split; try reflexivity; try assumption.
    all: rewrite <- ?app_assoc; reflexivity.
  - intros H; inversion H; subst; clear H.
    exists m, (set_params p' (set_training true m)), x_, r', fzero. simpl.
    repeat split; try reflexivity; try assumption.
    all: rewrite <- ?app_assoc; reflexivity.
Qed.

Lemma set_model_self (o : MLPAE) : o = set_model (model o) o.
Proof. destruct o; reflexivity. Qed.

(** The training loop, run to its end over the epochs [l]. *)
Lemma fit_loop_ok x labels l : forall loc st st' loc',
  for_each l (fit_epoch x labels) loc st = (st', Ok loc') ->
  exists outs,
    length outs = length l /\
    trace st' =
      trace st
      ++ concat (map2 (epoch_block (verbose (self st)) x labels) l outs) /\
    score loc' =
      fold_left (fun _ out => Some (mean_dim1 (mse_loss_none (fst out) x)))
                outs (score loc) /\
    Forall (forward_output x) outs /\
    exists mo, self st' = set_model mo (self st).
Proof.
  induction l as [|ep l IH]; intros loc st st' loc' Hrun; simpl in Hrun.
  - inversion Hrun; subst. exists []. simpl. rewrite app_nil_r.
    repeat split; auto. exists (model (self st')). apply set_model_self.
  - apply bind_ok in Hrun. destruct Hrun as (loc1 & st1 & Hep & Hrest).
    apply fit_epoch_ok in Hep.
    destruct Hep as (m & m' & x_ & r' & auc & Hm & Hf & Ht & Hs & Hself).
    apply IH in Hrest.
    destruct Hrest as (outs & Hlen & Ht' & Hs' & Hfw & mo & Hself').
    exists ((x_, auc) :: outs).
    assert (Hv : verbose (self st1) = verbose (self st))
      by (rewrite Hself; reflexivity).
    repeat split.
    + simpl. now rewrite Hlen.
    + rewrite Ht', Ht, Hv. simpl map2. simpl concat.
      now rewrite <- app_assoc.
    + rewrite Hs'. simpl. now rewrite Hs.
    + constructor; [|exact Hfw]. exists (set_training true m), (rng st), r'.
      exact Hf.
    + exists mo. rewrite Hself', Hself. reflexivity.
Qed.

(** [fit] that returns: everything it did. *)
Lemma fit_ok G st st' :
  fit G st = (st', Ok tt) ->
  let x := G_x G in
  let o := self st in
  exists outs s mo,
    length outs = Z.to_nat (epoch o) /\
    trace st' =
      trace st
      ++ EvMLP (build_channel_list x o) (dropout o)
               (match act o with Some _ => true | None => false end) false
      :: EvAdam (lr o) (weight_decay o)
      :: concat (map2 (epoch_block (verbose o) x (G_y G))
                      (range (epoch o)) outs) /\
    Forall (forward_output x) outs /\
    fold_left (fun _ out => Some (mean_dim1 (mse_loss_none (fst out) x)))
              outs None = Some s /\
    _process_decision_scores (set_decision_scores_ s (set_model mo o))
      = Ok (self st').
Proof.
  unfold fit, process_graph, to.
  unfold bind at 1. unfold bind at 1. simpl.
  unfold bind at 1. unfold get_self at 1. simpl.
  unfold bind at 1. unfold emit at 1. simpl.
  unfold bind at 1. unfold get_rng at 1. simpl.
  unfold bind at 1. unfold lift at 1. simpl.
  destruct (MLP_new _ _ _ _ _) as [[p r']|e]; [|discriminate].
  unfold bind at 1. unfold set_rng at 1. simpl.
  unfold bind at 1. unfold set_self at 1. simpl.
  unfold bind at 1. unfold emit at 1. simpl.
  unfold bind at 1. unfold lift at 1. simpl.
  destruct (Adam_new _ _ _) as [opt|e]; [|discriminate].
  unfold bind at 1. unfold get_self at 1. simpl.
  unfold bind at 1.
  match goal with
  | |- context [for_each ?l ?b ?a ?s] =>
      destruct (for_each l b a s) as [st1 [loc1|e]] eqn:Hloop
  end; [|discriminate].
  apply fit_loop_ok in Hloop. simpl in Hloop.
  destruct Hloop as (outs & Hlen & Ht & Hs & Hfw & mo & Hself).
  destruct (score loc1) as [s|] eqn:Hscore; [|discriminate].
  unfold bind, get_self, set_self, lift; simpl.
  destruct (_process_decision_scores _) as [o'|e] eqn:Hp; [|discriminate].
  intros H; inversion H; subst; clear H. simpl.
  exists outs, s, mo. rewrite range_length in Hlen.
  repeat split; auto.
  - rewrite Ht. rewrite <- !app_assoc. reflexivity.
  - rewrite <- Hp, Hself. reflexivity.
Qed.
End MethodFacts.

(** ** Traces *)
Section TraceFacts.
Context {C : Carriers} {E : Externals}.

Lemma count_app p (a b : list Event) :
  count p (a ++ b) = (count p a + count p b)%nat.
Proof. unfold count. now rewrite filter_app, length_app. Qed.

Lemma map2_app {X Y Z0} (f : X -> Y -> Z0) l1 l2 m1 m2 :
  length l1 = length m1 ->
  map2 f (l1 ++ l2) (m1 ++ m2) = map2 f l1 m1 ++ map2 f l2 m2.
Proof.
  revert m1. induction l1 as [|a l1 IH]; intros [|b m1] L; simpl in *;
    try discriminate; [reflexivity|].
  f_equal. apply IH. lia.
Qed.

(** Counting over whole iterations: [k] per iteration. *)
Lemma count_blocks p v x labels k :
  (forall ep out, count p (epoch_block v x labels ep out) = k) ->
  forall l outs, length outs = length l ->
  count p (concat (map2 (epoch_block v x labels) l outs))
  = (k * length l)%nat.
Proof.
  intros Hk. induction l as [|ep l IH]; intros [|out outs] L;
    simpl in L; try discriminate; cbn [map2 concat length].
  - cbn. lia.
  - rewrite count_app, Hk, IH by lia. lia.
Qed.

Section Preceded.
Variable R : list Event -> Event -> Prop.
Hypothesis R_ext : forall a pre e, R pre e -> R (a ++ pre) e.



End Preceded.




Lemma score_bound_nonempty x (outs : list (Tensor F * F)) s :
  fold_left (fun _ out => Some (mean_dim1 (mse_loss_none (fst out) x)))
            outs None = Some s ->
  exists outs' out,
    outs = outs' ++ [out] /\ s = mean_dim1 (mse_loss_none (fst out) x).
Proof.
  destruct outs as [|o outs] using rev_ind; simpl; [discriminate|].
  rewrite fold_left_app. simpl. intros H; inversion H.
  exists outs, o. split; reflexivity.
Qed.
End TraceFacts.

(** ** The claims *)
Section Claims.
Context {C : Carriers} {E : Externals}.

(** C1.  On a fitted detector, [decision_function(G)] returns one score per
    node, and the score of node [i] is the mean over the [d] feature
    dimensions of the squared difference between the network's
    reconstruction [x_] of the features (computed in evaluation mode) and
    the features themselves. *)
Theorem decision_function_scores (G : Data) (st : State) (m : MLP)
    (x_ : Tensor F) (r' : Rng) :
  model (self st) = Some m ->
  forward (set_training false m) (rng st) (G_x G) = Ok (x_, r') ->
  wf_tensor (G_x G) -> wf_tensor x_ -> same_shape x_ (G_x G) ->
  exists scores,
    snd (decision_function G st) = Ok scores /\
    length scores = shape0 (G_x G) /\
    forall i, (i < shape0 (G_x G))%nat ->
      nth i scores fzero = recon_error x_ (G_x G) i.
Proof.
  intros Hm Hf W W_ S.
  exists (mean_dim1 (mse_loss_none x_ (G_x G))). split; [|split].
  - unfold decision_function, check_is_fitted, model_eval, model_call,
      model_attr, update_model, process_graph, to, bind, get_self, get_rng,
      set_self, set_rng, emit, lift, ret, raise.
    destruct st as [o r t]; simpl in *.
    rewrite Hm; simpl. rewrite Hm; simpl. rewrite Hf. reflexivity.
  - apply mean_dim1_length. exact S.
  - intros i Hi. apply mean_dim1_nth; assumption.
Qed.


(** C3.  On an instance that [__init__] has just returned,
    [decision_function] raises: [check_is_fitted] finds the attribute
    [model] (it is there, bound to [None]) and [self.model.eval()] then
    fails with an [AttributeError]. *)
Theorem decision_function_before_fit (hid_dim num_layers : Z)
    (dropout weight_decay : F) (act : option Act) (contamination lr : F)
    (epoch gpu : Z) (verbose : bool) (o : MLPAE) (G : Data) (r : Rng)
    (t : list Event) :
  __init__ hid_dim num_layers dropout weight_decay act contamination lr
           epoch gpu verbose = Ok o ->
  snd (decision_function G {| self := o; rng := r; trace := t |}) =
  Err (AttributeError "'NoneType' object has no attribute 'eval'").
Proof.
  unfold __init__. destruct (BaseDetector_init contamination) as [b|e];
    [|discriminate].
  intros H; inversion H; subst; clear H. reflexivity.
Qed.

Lemma count_block_train v x labels ep out :
  count is_EvTrain (epoch_block v x labels ep out) = 1%nat.
Proof. destruct out, v; reflexivity. Qed.

Lemma count_block_forward v x labels ep out :
  count is_EvForward (epoch_block v x labels ep out) = 1%nat.
Proof. destruct out, v; reflexivity. Qed.

Lemma count_block_backward v x labels ep out :
  count is_EvBackward (epoch_block v x labels ep out) = 1%nat.
Proof. destruct out, v; reflexivity. Qed.

Lemma count_block_step v x labels ep out :
  count is_EvStep (epoch_block v x labels ep out) = 1%nat.
Proof. destruct out, v; reflexivity. Qed.

Lemma count_block_auc v x labels ep out :
  count is_EvAuc (epoch_block v x labels ep out)
  = (if v then 1 else 0)%nat.
Proof. destruct out, v; reflexivity. Qed.

Lemma count_block_print v x labels ep out :
  count is_EvPrint (epoch_block v x labels ep out)
  = (if v then 1 else 0)%nat.
Proof. destruct out, v; reflexivity. Qed.

(** [fit] returns only after at least one epoch. *)
Lemma fit_ok_epoch_positive G st st' :
  fit G st = (st', Ok tt) -> 1 <= epoch (self st).
Proof.
  intros Hfit. apply fit_ok in Hfit.
  destruct Hfit as (outs & s & mo & Hlen & _ & _ & Hs & _).
  apply score_bound_nonempty in Hs. destruct Hs as (outs' & out & -> & _).
  rewrite length_app in Hlen. simpl in Hlen. lia.
Qed.

(** C9.  With [epoch = 0] the call to [fit] raises: once the module and the
    optimizer are built, the loop body never runs and the assignment from
    [score] fails with [UnboundLocalError].  So a call that returns had
    [epoch >= 1]. *)
Theorem fit_needs_an_epoch (G : Data) (st : State) :
  (epoch (self st) = 0 ->
   exists e,
     snd (fit G st) = Err e /\
     forall p r' opt,
       MLP_new (build_channel_list (G_x G) (self st)) (dropout (self st))
               (match act (self st) with Some _ => true | None => false end)
               false (rng st) = Ok (p, r') ->
       Adam_new p (lr (self st)) (weight_decay (self st)) = Ok opt ->
       e = UnboundLocalError "score") /\
  (snd (fit G st) = Ok tt -> 1 <= epoch (self st)).
Proof.
  split.
  - intros He. unfold fit, process_graph, to.
    unfold bind, get_self, get_rng, set_self, set_rng, emit, lift, ret,
      raise. simpl.
    destruct (MLP_new _ _ _ _ _) as [[p r']|e] eqn:Hm; simpl.
    + destruct (Adam_new _ _ _) as [opt|e] eqn:Ha; simpl.
      * rewrite He. simpl. eexists. split; [reflexivity|]. reflexivity.
      * exists e. split; [reflexivity|].
        intros p0 r0 opt0 H. inversion H; subst.
        rewrite Ha. discriminate.
    + exists e. split; [reflexivity|]. discriminate.
  - intros H. destruct (fit G st) as [st' [[]|e]] eqn:Hfit; [|discriminate].
    exact (fit_ok_epoch_positive _ _ Hfit).
Qed.

(** C10, as the code has it.  On a fitted detector, whatever
    [decision_function] returns or raises, the instance afterwards is the
    instance before with its network switched to evaluation mode: the
    parameters, [decision_scores_] and every other attribute are the same,
    and only the [training] flag of the network becomes [False]. *)
Theorem decision_function_frame (G : Data) (st : State) (m : MLP) :
  model (self st) = Some m ->
  self (fst (decision_function G st)) =
  set_model (Some (set_training false m)) (self st).
Proof.
  intros Hm.
  unfold decision_function, check_is_fitted, model_eval, model_call,
    model_attr, update_model, process_graph, to, bind, get_self, get_rng,
    set_self, set_rng, emit, lift, ret, raise.
  destruct st as [o r t]; simpl in *.
  rewrite Hm; simpl. rewrite Hm; simpl.
  destruct (forward _ _ _) as [[x_ r']|e]; reflexivity.
Qed.

End Claims.

(** ** The executable instance meets the side conditions *)
Module ToyFacts.
Import Toy Fixtures.


Lemma toy_process_frame : process_frame.
Proof.
  intros o o'. simpl. unfold toy_process.
  destruct (decision_scores_ o) as [s|] eqn:Hs; [|discriminate].
  intros H; inversion H; subst; clear H. simpl. auto.
Qed.

Lemma wf_x0 : wf_tensor x0.
Proof. repeat constructor. Qed.
End ToyFacts.

(** ** The claims on concrete inputs *)
Module Instances.
Import Toy Fixtures ToyFacts.

Lemma decision_function_scores_witness :
  exists scores,
    snd (decision_function G0 (fitted false 2)) = Ok scores /\
    length scores = shape0 (G_x G0) /\
    forall i, (i < shape0 (G_x G0))%nat ->
      nth i scores fzero =
      recon_error (scale (params (network (fitted false 2))) x0) (G_x G0) i.
Proof.
  apply (decision_function_scores G0 (fitted false 2)
           (m := network (fitted false 2)) (r' := 3%nat)).
  - vm_compute. reflexivity.
  - vm_compute. reflexivity.
  - exact wf_x0.
  - repeat constructor.
  - split; reflexivity.
Defined.

Lemma decision_function_before_fit_witness :
  snd (decision_function G0 (start true 5)) =
  Err (AttributeError "'NoneType' object has no attribute 'eval'").
Proof.
  apply (@decision_function_before_fit carriers externals
           3 4 (3 # 10)%Q 0%Q (Some tt) (1 # 10)%Q (5 # 1000)%Q 5 0 true).
  vm_compute. reflexivity.
Defined.

Lemma returned {A} (p : State * result A) (a : A) :
  snd p = Ok a -> p = (fst p, Ok a).
Proof. destruct p as [st r]. simpl. intros ->. reflexivity. Qed.

(** With the default [verbose=False], two epochs run and no AUC is
    computed or printed in either of them. *)
Lemma fit_quiet_without_verbose :
  snd (fit G0 (start false 2)) = Ok tt /\
  count is_EvStep (trace (fitted false 2)) = 2%nat /\
  count is_EvAuc (trace (fitted false 2)) = 0%nat /\
  count is_EvPrint (trace (fitted false 2)) = 0%nat.
Proof. vm_compute. repeat split; reflexivity. Qed.

Lemma fit_needs_an_epoch_witness :
  exists e,
    snd (fit G0 (start true 0)) = Err e /\
    forall p r' opt,
      MLP_new (build_channel_list (G_x G0) (self (start true 0)))
              (dropout (self (start true 0)))
              (match act (self (start true 0)) with
               | Some _ => true | None => false end)
              false (rng (start true 0)) = Ok (p, r') ->
      Adam_new p (lr (self (start true 0)))
               (weight_decay (self (start true 0))) = Ok opt ->
      e = UnboundLocalError "score".
Proof.
  apply (proj1 (fit_needs_an_epoch G0 (start true 0))).
  vm_compute. reflexivity.
Defined.

Lemma same_self_same_mode (st1 st2 : State) :
  self st1 = self st2 ->
  training (network st1) = training (network st2).
Proof. unfold network. intros ->. reflexivity. Qed.

(** The first [decision_function] after [fit] changes the instance: the
    network was in training mode and is in evaluation mode afterwards. *)
Lemma decision_function_switches_mode :
  snd (fit G0 (start false 2)) = Ok tt /\
  is_ok (snd (decision_function G0 (fitted false 2))) = true /\
  self (fst (decision_function G0 (fitted false 2)))
  <> self (fitted false 2) /\
  training (network (fitted false 2)) = true /\
  training (network (fst (decision_function G0 (fitted false 2)))) = false.
Proof.
  assert (Ht : training (network (fitted false 2)) = true)
    by (vm_compute; reflexivity).
  assert (Hf : training (network (fst (decision_function G0 (fitted false 2))))
               = false)
    by (vm_compute; reflexivity).
  split; [vm_compute; reflexivity|].
  split; [vm_compute; reflexivity|].
  split; [|split; assumption].
  intros H. apply same_self_same_mode in H. rewrite Hf, Ht in H.
  discriminate H.
Qed.

Lemma decision_function_frame_witness :
  self (fst (decision_function G0 (fitted false 2))) =
  set_model (Some (set_training false (network (fitted false 2))))
            (self (fitted false 2)).
Proof.
  apply (decision_function_frame G0 (fitted false 2)).
  vm_compute. reflexivity.
Defined.
End Instances.


(** * Further properties of the methods *)
Section FitOutcomes.
Context {C : Carriers} {E : Externals}.

(** [fit], cut at its two constructor calls. *)
Lemma fit_eq G st :
  fit G st =
  match MLP_new_for (G_x G) (self st) (rng st) with
  | Err e =>
      ({| self := self st; rng := rng st;
          trace := trace st ++ [new_network_call (G_x G) (self st)] |},
       Err e)
  | Ok (p, r') =>
      match Adam_new p (lr (self st)) (weight_decay (self st)) with
      | Err e => (ready G st p r', Err e)
      | Ok opt =>
          bind (for_each (range (epoch (self st)))
                         (fit_epoch (G_x G) (G_y G))
                         {| optimizer := opt; score := None |})
               store_scores (ready G st p r')
      end
  end.
Proof.
  unfold fit, process_graph, to, MLP_new_for, ready, new_network_call.
  unfold bind at 1. unfold bind at 1. simpl.
  unfold bind at 1. unfold get_self at 1. simpl.
  unfold bind at 1. unfold emit at 1. simpl.
  unfold bind at 1. unfold get_rng at 1. simpl.
  unfold bind at 1. unfold lift at 1. simpl.
  destruct (MLP_new _ _ _ _ _) as [[p r']|e]; [|reflexivity].
  unfold bind at 1. unfold set_rng at 1. simpl.
  unfold bind at 1. unfold set_self at 1. simpl.
  unfold bind at 1. unfold emit at 1. simpl.
  unfold bind at 1. unfold lift at 1. simpl.
  destruct (Adam_new _ _ _) as [opt|e].
  - unfold bind at 1. unfold get_self at 1. simpl.
    rewrite <- app_assoc. reflexivity.
  - rewrite <- app_assoc. reflexivity.
Qed.

Lemma range_nonpositive n : n <= 0 -> range n = [].
Proof.
  intros Hn. unfold range. replace (Z.to_nat n) with 0%nat by lia.
  reflexivity.
Qed.

Lemma range_positive n : 1 <= n -> exists l, range n = 0 :: l.
Proof.
  intros Hn. unfold range.
  destruct (Z.to_nat n) as [|k] eqn:Hk; [lia|].
  simpl. eexists. reflexivity.
Qed.

(** X1.  When the [MLP] constructor raises, [fit] raises the same exception
    and the instance is as it was: [self.model] is not replaced, nothing else
    has been called. *)
Theorem fit_constructor_failure (G : Data) (st : State) (e : exn) :
  MLP_new_for (G_x G) (self st) (rng st) = Err e ->
  fit G st =
  ({| self := self st; rng := rng st;
      trace := trace st ++ [new_network_call (G_x G) (self st)] |}, Err e).
Proof. intros H. rewrite fit_eq, H. reflexivity. Qed.

(** X2.  When the optimizer constructor raises (a negative learning rate,
    say), [fit] raises the same exception after it has already replaced
    [self.model] by the new, untrained network; the stored scores are the
    old ones and no training call has been made. *)
Theorem fit_optimizer_failure (G : Data) (st : State) (p : Params)
    (r' : Rng) (e : exn) :
  MLP_new_for (G_x G) (self st) (rng st) = Ok (p, r') ->
  Adam_new p (lr (self st)) (weight_decay (self st)) = Err e ->
  fit G st = (ready G st p r', Err e) /\
  model (self (ready G st p r')) = Some (new_network (G_x G) (self st) p) /\
  decision_scores_ (self (ready G st p r')) = decision_scores_ (self st).
Proof.
  intros Hm Ha. rewrite fit_eq, Hm, Ha. repeat split; reflexivity.
Qed.

(** X3.  With [epoch <= 0] (zero or negative) and both constructors
    succeeding, [fit] raises [UnboundLocalError] and leaves the instance
    with a new network that has never been trained, next to whatever scores
    it had before. *)
Theorem fit_without_epochs (G : Data) (st : State) (p : Params) (r' : Rng)
    (opt : Opt) :
  epoch (self st) <= 0 ->
  MLP_new_for (G_x G) (self st) (rng st) = Ok (p, r') ->
  Adam_new p (lr (self st)) (weight_decay (self st)) = Ok opt ->
  fit G st = (ready G st p r', Err (UnboundLocalError "score")) /\
  model (self (ready G st p r')) = Some (new_network (G_x G) (self st) p) /\
  decision_scores_ (self (ready G st p r')) = decision_scores_ (self st).
Proof.
  intros He Hm Ha. rewrite fit_eq, Hm, Ha, (range_nonpositive He).
  repeat split; reflexivity.
Qed.

(** X4.  With [verbose] set, a metric that raises in the first epoch (labels
    of one class only, say) makes [fit] raise the same exception after
    exactly one optimizer step: the network has been updated once and the
    stored scores are still the old ones. *)
Theorem fit_metric_failure (G : Data) (st : State) (p : Params)
    (r1 r2 : Rng) (opt : Opt) (x_ : Tensor F) (e : exn) :
  let x := G_x G in
  let net := new_network x (self st) p in
  let step :=
    Adam_step opt p (backward net r1 x (fun out => mse_loss out x)) in
  verbose (self st) = true ->
  1 <= epoch (self st) ->
  MLP_new_for x (self st) (rng st) = Ok (p, r1) ->
  Adam_new p (lr (self st)) (weight_decay (self st)) = Ok opt ->
  forward net r1 x = Ok (x_, r2) ->
  roc_auc_score (G_y G) (mean_dim1 (mse_loss_none x_ x)) = Err e ->
  snd (fit G st) = Err e /\
  trace (fst (fit G st)) =
    trace (ready G st p r1)
    ++ [EvTrain; EvForward x_; EvZeroGrad; EvBackward (mse_loss x_ x);
        EvStep; EvAuc (G_y G) (mean_dim1 (mse_loss_none x_ x))] /\
  model (self (fst (fit G st))) = Some (set_params (snd step) net) /\
  decision_scores_ (self (fst (fit G st))) = decision_scores_ (self st).
Proof.
  intros x net step Hv He Hm Ha Hf Hr.
  assert (Hep :
    fit_epoch x (G_y G) 0 {| optimizer := opt; score := None |}
              (ready G st p r1) =
    ({| self := set_model (Some (set_params (snd step) net)) (self st);
        rng := r2;
        trace := trace (ready G st p r1)
                 ++ [EvTrain; EvForward x_; EvZeroGrad;
                     EvBackward (mse_loss x_ x); EvStep;
                     EvAuc (G_y G) (mean_dim1 (mse_loss_none x_ x))] |},
     Err e)).
  { unfold fit_epoch, model_train, model_call, model_attr, update_model,
      bind, get_self, get_rng, set_self, set_rng, emit, lift, ret, raise.
    unfold ready. simpl. fold x. fold net.
    change (set_training true net) with net.
    rewrite Hf. simpl. fold step. destruct step as [opt' p']. simpl.
    rewrite Hv, Hr. simpl. rewrite <- !app_assoc. reflexivity. }
  assert (Hfit :
    fit G st =
    ({| self := set_model (Some (set_params (snd step) net)) (self st);
        rng := r2;
        trace := trace (ready G st p r1)
                 ++ [EvTrain; EvForward x_; EvZeroGrad;
                     EvBackward (mse_loss x_ x); EvStep;
                     EvAuc (G_y G) (mean_dim1 (mse_loss_none x_ x))] |},
     Err e)).
  { rewrite fit_eq. fold x. rewrite Hm, Ha.
    destruct (range_positive He) as [l ->].
    unfold bind at 1. cbn [for_each]. unfold bind at 1.
    rewrite Hep. reflexivity. }
  rewrite Hfit. repeat split; reflexivity.
Qed.
End FitOutcomes.

Section ScoringOutcomes.
Context {C : Carriers} {E : Externals}.

Ltac run_decision_function :=
  unfold decision_function, check_is_fitted, model_eval, model_call,
    model_attr, update_model, process_graph, to, bind, get_self, get_rng,
    set_self, set_rng, emit, lift, ret, raise.

Lemma decision_function_run_none G st :
  model (self st) = None ->
  decision_function G st =
  (st, Err (AttributeError "'NoneType' object has no attribute 'eval'")).
Proof.
  intros Hm. run_decision_function.
  destruct st as [o r t]; simpl in *. rewrite Hm. reflexivity.
Qed.

Lemma decision_function_run_ok G st m x_ r' :
  model (self st) = Some m ->
  forward (set_training false m) (rng st) (G_x G) = Ok (x_, r') ->
  decision_function G st =
  ({| self := set_model (Some (set_training false m)) (self st);
      rng := r';
      trace := trace st ++ [EvEval; EvForward x_] |},
   Ok (mean_dim1 (mse_loss_none x_ (G_x G)))).
Proof.
  intros Hm Hf. run_decision_function.
  destruct st as [o r t]; simpl in *.
  rewrite Hm; simpl. rewrite Hm; simpl. rewrite Hf. simpl.
  rewrite <- app_assoc. reflexivity.
Qed.

Lemma decision_function_run_err G st m e :
  model (self st) = Some m ->
  forward (set_training false m) (rng st) (G_x G) = Err e ->
  decision_function G st =
  ({| self := set_model (Some (set_training false m)) (self st);
      rng := rng st;
      trace := trace st ++ [EvEval] |},
   Err e).
Proof.
  intros Hm Hf. run_decision_function.
  destruct st as [o r t]; simpl in *.
  rewrite Hm; simpl. rewrite Hm; simpl. rewrite Hf. reflexivity.
Qed.

(** X5.  On any instance whose [model] is [None], [decision_function]
    raises [AttributeError] before it does anything: the instance, the
    generator and the call history are untouched. *)
Theorem decision_function_without_model (G : Data) (st : State) :
  model (self st) = None ->
  decision_function G st =
  (st, Err (AttributeError "'NoneType' object has no attribute 'eval'")).
Proof. apply decision_function_run_none. Qed.

(** X6.  On an instance with a network, a scoring call whose forward pass
    succeeds makes exactly two library calls, [eval()] and one forward pass:
    it never trains, back-propagates or steps an optimizer, and it leaves
    the generator where the forward pass left it. *)
Theorem decision_function_calls (G : Data) (st : State) (m : MLP)
    (x_ : Tensor F) (r' : Rng) :
  model (self st) = Some m ->
  forward (set_training false m) (rng st) (G_x G) = Ok (x_, r') ->
  decision_function G st =
  ({| self := set_model (Some (set_training false m)) (self st);
      rng := r';
      trace := trace st ++ [EvEval; EvForward x_] |},
   Ok (mean_dim1 (mse_loss_none x_ (G_x G)))).
Proof. apply decision_function_run_ok. Qed.

(** X7.  When the forward pass raises (features of the wrong width, say),
    [decision_function] raises the same exception; the network has already
    been switched to evaluation mode and nothing else has changed. *)
Theorem decision_function_forward_failure (G : Data) (st : State) (m : MLP)
    (e : exn) :
  model (self st) = Some m ->
  forward (set_training false m) (rng st) (G_x G) = Err e ->
  decision_function G st =
  ({| self := set_model (Some (set_training false m)) (self st);
      rng := rng st;
      trace := trace st ++ [EvEval] |},
   Err e).
Proof. apply decision_function_run_err. Qed.

(** X8.  The guard [check_is_fitted(self, ['model'])] passes on every
    instance, fitted or not, because [__init__] already binds [model].  So
    [decision_function] raises [NotFittedError] only if the forward pass
    does. *)
Theorem decision_function_never_unfitted (G : Data) (st : State) :
  check_is_fitted ["model"%string] st = (st, Ok tt) /\
  (forward_never_unfitted ->
   snd (decision_function G st) <> Err NotFittedError).
Proof.
  split; [reflexivity|].
  intros Hfw. destruct (model (self st)) as [m|] eqn:Hm.
  - destruct (forward (set_training false m) (rng st) (G_x G))
      as [[x_ r']|e] eqn:Hf.
    + rewrite (decision_function_run_ok G st Hm Hf). discriminate.
    + rewrite (decision_function_run_err G st Hm Hf). simpl.
      intros H. injection H as ->. exact (Hfw _ _ _ Hf).
  - rewrite (decision_function_run_none G st Hm). discriminate.
Qed.

(** X9.  Scoring can be repeated: when the evaluation-mode forward pass
    leaves the generator alone, a second [decision_function] on the same
    graph returns the same scores as the first and leaves the instance as
    the first call left it. *)
Theorem decision_function_repeatable (G : Data) (st : State) (m : MLP)
    (scores : list F) :
  eval_keeps_rng ->
  model (self st) = Some m ->
  snd (decision_function G st) = Ok scores ->
  let st1 := fst (decision_function G st) in
  snd (decision_function G st1) = Ok scores /\
  self (fst (decision_function G st1)) = self st1.
Proof.
  intros Hrng Hm Hs.
  destruct (forward (set_training false m) (rng st) (G_x G))
    as [[x_ r']|e] eqn:Hf.
  - assert (r' = rng st) by (eapply Hrng; [|exact Hf]; reflexivity).
    subst r'.
    rewrite (decision_function_run_ok G st Hm Hf) in *. simpl in *.
    erewrite decision_function_run_ok; [| reflexivity | exact Hf].
    split; [exact Hs | reflexivity].
  - rewrite (decision_function_run_err G st Hm Hf) in Hs.
    discriminate Hs.
Qed.

(** X10.  Scoring never reads the labels: two graphs with the same node
    features are treated alike, whatever [G.y] holds. *)
Theorem decision_function_ignores_labels (G1 G2 : Data) (st : State) :
  G_x G1 = G_x G2 ->
  decision_function G1 st = decision_function G2 st.
Proof.
  intros Hx. run_decision_function. simpl. rewrite Hx. reflexivity.
Qed.
End ScoringOutcomes.

Section TrainingLoop.
Context {C : Carriers} {E : Externals}.

Lemma same_but_model_refl o : same_but_model o o.
Proof. exists (model o). apply set_model_self. Qed.

Lemma same_but_model_trans o1 o2 o3 :
  same_but_model o1 o2 -> same_but_model o2 o3 -> same_but_model o1 o3.
Proof. intros [m1 ->] [m2 ->]. exists m2. reflexivity. Qed.

(** Whatever an iteration does, and however it ends, it changes no
    attribute of the instance other than the network. *)
Lemma fit_epoch_same_but_model x labels ep loc st :
  same_but_model (self st) (self (fst (fit_epoch x labels ep loc st))).
Proof.
  unfold fit_epoch, model_train, model_call, model_attr, update_model,
    bind, get_self, get_rng, set_self, set_rng, emit, lift, ret, raise.
  destruct st as [o r t]; simpl.
  destruct (model o) as [m|] eqn:Hm; simpl;
    [|apply same_but_model_refl].
  rewrite Hm; simpl.
  destruct (forward (set_training true m) r x) as [[x_ r']|e]; simpl;
    [|eexists; reflexivity].
  destruct (Adam_step _ _ _) as [opt' p']. simpl.
  destruct (verbose o); simpl; [|eexists; reflexivity].
  destruct (roc_auc_score _ _) as [auc|e]; simpl; eexists; reflexivity.
Qed.

Lemma fit_loop_same_but_model x labels l : forall loc st,
  same_but_model (self st)
    (self (fst (for_each l (fit_epoch x labels) loc st))).
Proof.
  induction l as [|ep l IH]; intros loc st; simpl.
  - apply same_but_model_refl.
  - unfold bind.
    pose proof (fit_epoch_same_but_model x labels ep loc st) as H1.
    destruct (fit_epoch x labels ep loc st) as [st1 [loc1|e]]; simpl in H1.
    + eapply same_but_model_trans; [exact H1 | apply IH].
    + exact H1.
Qed.

(** An iteration that runs to its end keeps what the network was built
    from, and leaves it in training mode. *)
Lemma fit_epoch_config x labels ep loc st st' loc' :
  fit_epoch x labels ep loc st = (st', Ok loc') ->
  exists m m',
    model (self st) = Some m /\ model (self st') = Some m' /\
    config m' = config m /\ training m' = true.
Proof.
  unfold fit_epoch, model_train, model_call, model_attr, update_model,
    bind, get_self, get_rng, set_self, set_rng, emit, lift, ret, raise.
  destruct st as [o r t]; simpl.
  destruct (model o) as [m|] eqn:Hm; simpl; [|discriminate].
  rewrite Hm; simpl.
  destruct (forward (set_training true m) r x) as [[x_ r']|e]; simpl;
    [|discriminate].
  destruct (Adam_step _ _ _) as [opt' p']. simpl.
  destruct (verbose o); simpl.
  - destruct (roc_auc_score _ _) as [auc|e]; simpl; [|discriminate].
    intros H; inversion H; subst. simpl.
    exists m, (set_params p' (set_training true m)). repeat split.
  - intros H; inversion H; subst. simpl.
    exists m, (set_params p' (set_training true m)). repeat split.
Qed.

Lemma fit_loop_config x labels l : forall loc st st' loc' m,
  for_each l (fit_epoch x labels) loc st = (st', Ok loc') ->
  model (self st) = Some m -> training m = true ->
  exists m',
    model (self st') = Some m' /\ config m' = config m /\
    training m' = true.
Proof.
  induction l as [|ep l IH]; intros loc st st' loc' m Hrun Hm Ht;
    simpl in Hrun.
  - inversion Hrun; subst. exists m. auto.
  - apply bind_ok in Hrun. destruct Hrun as (loc1 & st1 & Hep & Hrest).
    apply fit_epoch_config in Hep.
    destruct Hep as (m0 & m1 & Hm0 & Hm1 & Hc & Ht1).
    rewrite Hm in Hm0. injection Hm0 as <-.
    destruct (IH _ _ _ _ _ Hrest Hm1 Ht1) as (m' & Hm' & Hc' & Ht').
    exists m'. repeat split; congruence.
Qed.

(** Without [verbose], an iteration does not look at the labels. *)
Lemma fit_epoch_quiet x l1 l2 ep loc st :
  verbose (self st) = false ->
  fit_epoch x l1 ep loc st = fit_epoch x l2 ep loc st.
Proof.
  intros Hv.
  unfold fit_epoch, model_train, model_call, model_attr, update_model,
    bind, get_self, get_rng, set_self, set_rng, emit, lift, ret, raise.
  destruct st as [o r t]; simpl in *.
  destruct (model o) as [m|] eqn:Hm; simpl; [|reflexivity].
  rewrite Hm; simpl.
  destruct (forward (set_training true m) r x) as [[x_ r']|e]; simpl;
    [|reflexivity].
  destruct (Adam_step _ _ _) as [opt' p']. simpl.
  rewrite Hv. reflexivity.
Qed.

Lemma fit_loop_quiet x l1 l2 l : forall loc st,
  verbose (self st) = false ->
  for_each l (fit_epoch x l1) loc st = for_each l (fit_epoch x l2) loc st.
Proof.
  induction l as [|ep l IH]; intros loc st Hv; simpl; [reflexivity|].
  unfold bind. rewrite (fit_epoch_quiet x l1 l2 ep loc st Hv).
  pose proof (fit_epoch_same_but_model x l2 ep loc st) as [mo Hs].
  destruct (fit_epoch x l2 ep loc st) as [st1 [loc1|e]]; [|reflexivity].
  simpl in Hs. apply IH. rewrite Hs. exact Hv.
Qed.
End TrainingLoop.

Section FitFrame.
Context {C : Carriers} {E : Externals}.

(** X11.  Without [verbose], training is unsupervised in the literal
    sense: [fit] on two graphs with the same node features does the same,
    call for call, whatever their labels are. *)
Theorem fit_ignores_labels_when_quiet (G1 G2 : Data) (st : State) :
  G_x G1 = G_x G2 ->
  verbose (self st) = false ->
  fit G1 st = fit G2 st.
Proof.
  intros Hx Hv. rewrite !fit_eq. unfold ready. rewrite Hx.
  destruct (MLP_new_for _ _ _) as [[p r']|e]; [|reflexivity].
  destruct (Adam_new _ _ _) as [opt|e]; [|reflexivity].
  unfold bind. rewrite (fit_loop_quiet (G_x G2) (G_y G1) (G_y G2)).
  - reflexivity.
  - exact Hv.
Qed.

(** X12.  A [fit] that raises has changed no attribute of the instance
    other than [model] -- the hyperparameters, the old scores and the
    base-class attributes are intact -- unless the exception came from
    [_process_decision_scores], in which case the new scores are already
    stored. *)
Theorem fit_failure_frame (G : Data) (st : State) (e : exn) :
  snd (fit G st) = Err e ->
  same_but_model (self st) (self (fst (fit G st))) \/
  exists s mo,
    self (fst (fit G st)) = set_decision_scores_ s (set_model mo (self st))
    /\ _process_decision_scores
         (set_decision_scores_ s (set_model mo (self st))) = Err e.
Proof.
  rewrite fit_eq.
  destruct (MLP_new_for _ _ _) as [[p r']|e1];
    [|intros _; left; apply same_but_model_refl].
  destruct (Adam_new _ _ _) as [opt|e1];
    [|intros _; left; eexists; reflexivity].
  unfold bind.
  pose proof (fit_loop_same_but_model (G_x G) (G_y G)
                (range (epoch (self st)))
                {| optimizer := opt; score := None |} (ready G st p r'))
    as [mo Hs].
  destruct (for_each _ _ _ _) as [st1 [loc1|e1]]; simpl in Hs.
  - unfold store_scores.
    destruct (score loc1) as [s|]; simpl;
      [|intros _; left; exists mo; exact Hs].
    unfold bind, get_self, set_self, lift; simpl.
    destruct (_process_decision_scores _) as [o'|e1] eqn:Hp; simpl;
      [discriminate|].
    intros H; injection H as ->. right. exists s, mo.
    rewrite Hs in *. split; [reflexivity | exact Hp].
  - intros _. left. exists mo. exact Hs.
Qed.

(** X13.  When [fit] returns, [self.model] is a network built from
    [[d, hid_dim, ..., hid_dim, d]], the configured dropout, ReLU placement
    decided by [act is not None] and no batch normalisation, and it is left
    in training mode. *)
Theorem fit_installs_network (G : Data) (st st' : State) :
  fit G st = (st', Ok tt) ->
  process_frame ->
  exists m,
    model (self st') = Some m /\
    channel_list m = build_channel_list (G_x G) (self st) /\
    mlp_dropout m = dropout (self st) /\
    relu_first m = (match act (self st) with
                    | Some _ => true | None => false end) /\
    batch_norm m = false /\
    training m = true.
Proof.
  rewrite fit_eq. intros Hfit PF.
  destruct (MLP_new_for _ _ _) as [[p r']|e1]; [|discriminate].
  destruct (Adam_new _ _ _) as [opt|e1]; [|discriminate].
  unfold bind in Hfit.
  destruct (for_each _ _ _ _) as [st1 [loc1|e1]] eqn:Hloop; [|discriminate].
  apply fit_loop_config with (m := new_network (G_x G) (self st) p)
    in Hloop; [| reflexivity | reflexivity].
  destruct Hloop as (m' & Hm' & Hc & Ht).
  unfold store_scores in Hfit.
  destruct (score loc1) as [s|]; [|discriminate].
  unfold bind, get_self, set_self, lift in Hfit; simpl in Hfit.
  destruct (_process_decision_scores _) as [o'|e1] eqn:Hp; [|discriminate].
  inversion Hfit; subst; clear Hfit. simpl.
  apply PF in Hp. destruct Hp as [Hmo _]. simpl in Hmo.
  exists m'. unfold config in Hc. injection Hc as H1 H2 H3 H4.
  repeat split; try assumption. congruence.
Qed.

End FitFrame.

(** ** [fit] against the training function *)
Section Training.
Context {C : Carriers} {E : Externals}.

(** One iteration that runs to its end is one round of [train_with]: the
    forward pass of the network in training mode, then [Adam_step] on the
    gradient of the reconstruction loss, stored back into [self.model]. *)
Lemma fit_epoch_step x labels ep loc st st' loc' :
  fit_epoch x labels ep loc st = (st', Ok loc') ->
  exists m x_ auc,
    let m1 := set_training true m in
    let step := Adam_step (optimizer loc) (params m1)
                  (backward m1 (rng st) x (reconstruction_loss x)) in
    model (self st) = Some m /\
    forward m1 (rng st) x = Ok (x_, rng st') /\
    self st' = set_model (Some (set_params (snd step) m1)) (self st) /\
    optimizer loc' = fst step /\
    score loc' = Some (mean_dim1 (mse_loss_none x_ x)) /\
    (verbose (self st) = true -> auc_of x labels x_ auc) /\
    trace st' =
      trace st ++ epoch_block (verbose (self st)) x labels ep (x_, auc).
Proof.
  unfold fit_epoch, model_train, model_call, model_attr, update_model,
    bind, get_self, get_rng, set_self, set_rng, emit, lift, ret, raise.
  destruct st as [o r t]; simpl.
  destruct (model o) as [m|] eqn:Hm; simpl; [|discriminate].
  rewrite Hm; simpl.
  destruct (forward (set_training true m) r x) as [[x_ r']|e] eqn:Hf;
    simpl; [|discriminate].
  unfold reconstruction_loss.
  destruct (Adam_step _ _ _) as [opt' p'] eqn:Hs. simpl.
  destruct (verbose o) eqn:Hv; simpl.
  - destruct (roc_auc_score labels (mean_dim1 (mse_loss_none x_ x)))
      as [auc|e] eqn:Ha; simpl; [|discriminate].
    intros H; inversion H; subst; clear H.
    exists m, x_, auc. simpl. rewrite Hs. simpl.
    repeat split; try reflexivity; try assumption;
      try (intros _; exact Ha).
    all: rewrite <- ?app_assoc; reflexivity.
  - intros H; inversion H; subst; clear H.
    exists m, x_, fzero. simpl. rewrite Hs. simpl.
    repeat split; try reflexivity; try assumption; try discriminate.
    all: rewrite <- ?app_assoc; reflexivity.
Qed.

(** The loop that runs to its end is [train_with] for as many rounds as
    there are epochs. *)
Lemma fit_loop_train x labels l : forall loc st st' loc' m,
  for_each l (fit_epoch x labels) loc st = (st', Ok loc') ->
  model (self st) = Some m ->
  exists mE outs aucs,
    train_with (reconstruction_loss x) (length l) x m (optimizer loc)
               (rng st)
    = Ok (mE, optimizer loc', rng st', outs) /\
    self st' = set_model (Some mE) (self st) /\
    length outs = length l /\
    length aucs = length l /\
    (verbose (self st) = true -> Forall2 (auc_of x labels) outs aucs) /\
    score loc' =
      fold_left (fun _ x_ => Some (mean_dim1 (mse_loss_none x_ x)))
                outs (score loc) /\
    trace st' =
      trace st
      ++ concat (map2 (epoch_block (verbose (self st)) x labels) l
                      (combine outs aucs)).
Proof.
  induction l as [|ep l IH]; intros loc st st' loc' m Hrun Hm;
    simpl in Hrun.
  - inversion Hrun; subst. exists m, [], []. simpl. rewrite app_nil_r.
    repeat split; auto.
    rewrite <- Hm. apply set_model_self.
  - apply bind_ok in Hrun. destruct Hrun as (loc1 & st1 & Hep & Hrest).
    apply fit_epoch_step in Hep.
    destruct Hep as (m0 & x_ & auc & Hm0 & Hf & Hself & Hopt & Hsc & Ha & Ht).
    rewrite Hm in Hm0. injection Hm0 as <-.
    assert (Hm1 : model (self st1) = Some
              (set_params
                 (snd (Adam_step (optimizer loc) (params (set_training true m))
                         (backward (set_training true m) (rng st) x
                            (reconstruction_loss x))))
                 (set_training true m)))
      by (rewrite Hself; reflexivity).
    assert (Hv : verbose (self st1) = verbose (self st))
      by (rewrite Hself; reflexivity).
    destruct (IH _ _ _ _ _ Hrest Hm1)
      as (mE & outs & aucs & Htr & Hself' & Hlo & Hla & Hau & Hs' & Ht').
    exists mE, (x_ :: outs), (auc :: aucs).
    repeat split.
    + cbn [length train_with]. cbv zeta. rewrite Hf.
      destruct (Adam_step _ _ _) as [opt' p'] eqn:Hstep.
      simpl in Hopt, Htr. rewrite Hopt in Htr. rewrite Htr. reflexivity.
    + rewrite Hself', Hself. reflexivity.
    + simpl. now rewrite Hlo.
    + simpl. now rewrite Hla.
    + intros Hvt. constructor; [apply Ha; exact Hvt|].
      apply Hau. rewrite Hv. exact Hvt.
    + rewrite Hs'. simpl. now rewrite Hsc.
    + rewrite Ht', Ht, Hv. cbn [combine map2 concat].
      now rewrite <- app_assoc.
Qed.

(** A returning [fit], in full: the two constructors, [train_with] for
    [epoch] rounds from the new network, the calls made, the scores of the
    last round handed to [_process_decision_scores]. *)
Lemma fit_run G st st' :
  fit G st = (st', Ok tt) ->
  let x := G_x G in
  let o := self st in
  exists p r1 opt mE optE outs aucs s,
    MLP_new_for x o (rng st) = Ok (p, r1) /\
    Adam_new p (lr o) (weight_decay o) = Ok opt /\
    train_with (reconstruction_loss x) (Z.to_nat (epoch o)) x
               (new_network x o p) opt r1
    = Ok (mE, optE, rng st', outs) /\
    length outs = Z.to_nat (epoch o) /\
    length aucs = Z.to_nat (epoch o) /\
    (verbose o = true -> Forall2 (auc_of x (G_y G)) outs aucs) /\
    trace st' =
      trace st
      ++ [new_network_call x o; EvAdam (lr o) (weight_decay o)]
      ++ concat (map2 (epoch_block (verbose o) x (G_y G))
                      (range (epoch o)) (combine outs aucs)) /\
    fold_left (fun _ x_ => Some (mean_dim1 (mse_loss_none x_ x)))
              outs None = Some s /\
    _process_decision_scores
      (set_decision_scores_ s (set_model (Some mE) o)) = Ok (self st').
Proof.
  rewrite fit_eq. intros Hfit x o.
  destruct (MLP_new_for _ _ _) as [[p r1]|e1]; [|discriminate].
  destruct (Adam_new _ _ _) as [opt|e1] eqn:Ha; [|discriminate].
  unfold bind in Hfit.
  destruct (for_each _ _ _ _) as [st1 [loc1|e1]] eqn:Hloop; [|discriminate].
  apply fit_loop_train with (m := new_network x o p) in Hloop;
    [|reflexivity].
  destruct Hloop
    as (mE & outs & aucs & Htr & Hself & Hlo & Hla & Hau & Hs & Ht).
  rewrite range_length in *. simpl in Htr, Hself, Hau, Hs, Ht.
  unfold store_scores in Hfit.
  destruct (score loc1) as [s|] eqn:Hscore; [|discriminate].
  unfold bind, get_self, set_self, lift in Hfit; simpl in Hfit.
  destruct (_process_decision_scores _) as [o'|e1] eqn:Hp; [|discriminate].
  inversion Hfit; subst; clear Hfit. simpl.
  exists p, r1, opt, mE, (optimizer loc1), outs, aucs, s.
  repeat split; auto.
  - rewrite Ht. rewrite <- !app_assoc. reflexivity.
  - rewrite <- Hp, Hself. reflexivity.
Qed.




End Training.

(** ** The claims about training *)
Section TrainingClaims.
Context {C : Carriers} {E : Externals}.


Lemma combine_length_same {X Y} (a : list X) (b : list Y) n :
  length a = n -> length b = n -> length (combine a b) = n.
Proof. intros Ha Hb. rewrite length_combine. lia. Qed.


Lemma count_after_setup p (a b : Event) evs :
  p a = false -> p b = false -> count p ([a; b] ++ evs) = count p evs.
Proof. intros Ha Hb. unfold count. simpl. now rewrite Ha, Hb. Qed.

(** C5.  When [fit] returns, it has run exactly [epoch] training
    iterations, one optimizer update in each: the network it leaves in
    [self.model] is the new network after [epoch] rounds of forward pass
    and [Adam_step], no fewer and no more, and the calls it made contain
    exactly [epoch] switches to training mode, forward passes, backward
    passes and optimizer steps. *)
Theorem fit_runs_every_epoch (G : Data) (st st' : State) :
  fit G st = (st', Ok tt) ->
  process_frame ->
  exists p r1 opt mE optE outs evs,
    MLP_new_for (G_x G) (self st) (rng st) = Ok (p, r1) /\
    Adam_new p (lr (self st)) (weight_decay (self st)) = Ok opt /\
    train_with (reconstruction_loss (G_x G)) (Z.to_nat (epoch (self st)))
               (G_x G) (new_network (G_x G) (self st) p) opt r1
    = Ok (mE, optE, rng st', outs) /\
    model (self st') = Some mE /\
    Z.of_nat (length outs) = epoch (self st) /\
    trace st' = trace st ++ evs /\
    Z.of_nat (count is_EvTrain evs) = epoch (self st) /\
    Z.of_nat (count is_EvForward evs) = epoch (self st) /\
    Z.of_nat (count is_EvBackward evs) = epoch (self st) /\
    Z.of_nat (count is_EvStep evs) = epoch (self st).
Proof.
  intros Hfit PF. pose proof (fit_ok_epoch_positive _ _ Hfit) as Hpos.
  apply fit_run in Hfit.
  destruct Hfit
    as (p & r1 & opt & mE & optE & outs & aucs & s
        & Hm & Ha & Htr & Hlo & Hla & _ & Ht & _ & Hp).
  apply PF in Hp. destruct Hp as [Hmodel _]. simpl in Hmodel.
  pose proof (combine_length_same outs aucs Hlo Hla) as Hlc.
  rewrite <- range_length in Hlc.
  exists p, r1, opt, mE, optE, outs. eexists.
  split; [exact Hm|]. split; [exact Ha|]. split; [exact Htr|].
  split; [exact Hmodel|]. split; [lia|]. split; [exact Ht|].
  rewrite !count_after_setup by reflexivity.
  repeat split.
  - rewrite count_blocks with (k := 1%nat);
      [rewrite range_length; lia | apply count_block_train | exact Hlc].
  - rewrite count_blocks with (k := 1%nat);
      [rewrite range_length; lia | apply count_block_forward | exact Hlc].
  - rewrite count_blocks with (k := 1%nat);
      [rewrite range_length; lia | apply count_block_backward | exact Hlc].
  - rewrite count_blocks with (k := 1%nat);
      [rewrite range_length; lia | apply count_block_step | exact Hlc].
Qed.



(** C8, as the code has it.  A returning [fit] makes, after the two
    constructor calls, one block of calls per epoch and nothing else.  With
    [verbose] set, every block ends with [roc_auc_score] on the labels of
    the graph and the per-node errors of that epoch's forward output, and
    with a print of the epoch number, the loss and the value
    [roc_auc_score] returned: [epoch] AUC calls and prints in all.
    Without it (the default) there is no AUC call and no print. *)
Theorem fit_auc_when_verbose (G : Data) (st st' : State) :
  fit G st = (st', Ok tt) ->
  exists p r1 opt mE optE outs aucs evs,
    MLP_new_for (G_x G) (self st) (rng st) = Ok (p, r1) /\
    Adam_new p (lr (self st)) (weight_decay (self st)) = Ok opt /\
    train_with (reconstruction_loss (G_x G)) (Z.to_nat (epoch (self st)))
               (G_x G) (new_network (G_x G) (self st) p) opt r1
    = Ok (mE, optE, rng st', outs) /\
    length aucs = length outs /\
    trace st' = trace st ++ evs /\
    evs =
      [new_network_call (G_x G) (self st);
       EvAdam (lr (self st)) (weight_decay (self st))]
      ++ concat (map2 (epoch_block (verbose (self st)) (G_x G) (G_y G))
                      (range (epoch (self st))) (combine outs aucs)) /\
    if verbose (self st)
    then Forall2 (auc_of (G_x G) (G_y G)) outs aucs /\
         Z.of_nat (count is_EvAuc evs) = epoch (self st) /\
         Z.of_nat (count is_EvPrint evs) = epoch (self st)
    else count is_EvAuc evs = 0%nat /\ count is_EvPrint evs = 0%nat.
Proof.
  intros Hfit. pose proof (fit_ok_epoch_positive _ _ Hfit) as Hpos.
  apply fit_run in Hfit.
  destruct Hfit
    as (p & r1 & opt & mE & optE & outs & aucs & s
        & Hm & Ha & Htr & Hlo & Hla & Hau & Ht & _ & _).
  pose proof (combine_length_same outs aucs Hlo Hla) as Hlc.
  rewrite <- range_length in Hlc.
  exists p, r1, opt, mE, optE, outs, aucs. eexists.
  split; [exact Hm|]. split; [exact Ha|]. split; [exact Htr|].
  split; [congruence|]. split; [exact Ht|]. split; [reflexivity|].
  rewrite !count_after_setup by reflexivity.
  rewrite count_blocks
    with (p := is_EvAuc) (k := (if verbose (self st) then 1 else 0)%nat);
    [| apply count_block_auc | exact Hlc].
  rewrite count_blocks
    with (p := is_EvPrint) (k := (if verbose (self st) then 1 else 0)%nat);
    [| apply count_block_print | exact Hlc].
  rewrite range_length.
  destruct (verbose (self st)); repeat split; try lia.
  apply Hau. reflexivity.
Qed.

(** X14.  The calls of a returning [fit], in order and with nothing else:
    the [MLP] constructor, [Adam] with the configured learning rate and
    weight decay, then for each epoch number [0, 1, ..., epoch-1] one block
    [train], forward, [zero_grad], [backward], [step], the forward outputs
    being those of the training run; under [verbose] each block goes on
    with [roc_auc_score] and a print of that epoch number, the loss and
    the value [roc_auc_score] returned. *)
Theorem fit_call_sequence (G : Data) (st st' : State) :
  fit G st = (st', Ok tt) ->
  exists p r1 opt mE optE outs aucs,
    MLP_new_for (G_x G) (self st) (rng st) = Ok (p, r1) /\
    Adam_new p (lr (self st)) (weight_decay (self st)) = Ok opt /\
    train_with (reconstruction_loss (G_x G)) (Z.to_nat (epoch (self st)))
               (G_x G) (new_network (G_x G) (self st) p) opt r1
    = Ok (mE, optE, rng st', outs) /\
    length outs = Z.to_nat (epoch (self st)) /\
    length aucs = Z.to_nat (epoch (self st)) /\
    (verbose (self st) = true ->
     Forall2 (auc_of (G_x G) (G_y G)) outs aucs) /\
    trace st' =
      trace st
      ++ [new_network_call (G_x G) (self st);
          EvAdam (lr (self st)) (weight_decay (self st))]
      ++ concat (map2 (epoch_block (verbose (self st)) (G_x G) (G_y G))
                      (range (epoch (self st))) (combine outs aucs)).
Proof.
  intros Hfit. apply fit_run in Hfit.
  destruct Hfit
    as (p & r1 & opt & mE & optE & outs & aucs & s
        & Hm & Ha & Htr & Hlo & Hla & Hau & Ht & _ & _).
  exists p, r1, opt, mE, optE, outs, aucs. repeat split; assumption.
Qed.
End TrainingClaims.

(** ** Two runs side by side *)
Section TwoRuns.
Context {C : Carriers} {E : Externals}.
Variable R : Rng -> Rng -> Prop.
Hypothesis HR : respects_generator R.

Lemma forward_related m r1 r2 x :
  R r1 r2 ->
  same_outcome (fun a b => fst a = fst b /\ R (snd a) (snd b))
               (forward m r1 x) (forward m r2 x).
Proof. destruct HR as (_ & _ & H & _). apply H. Qed.

Lemma backward_related m r1 r2 x L :
  R r1 r2 -> backward m r1 x L = backward m r2 x L.
Proof. destruct HR as (_ & _ & _ & H). apply H. Qed.

Lemma fit_epoch_agree x labels ep loc st1 st2 :
  agree_on R st1 st2 ->
  snd (fit_epoch x labels ep loc st1) = snd (fit_epoch x labels ep loc st2)
  /\ agree_on R (fst (fit_epoch x labels ep loc st1))
                (fst (fit_epoch x labels ep loc st2)).
Proof.
  destruct st1 as [o1 r1 t1], st2 as [o2 r2 t2].
  intros (Hh & Hm & Hr). simpl in Hh, Hm, Hr.
  assert (Hv : verbose o1 = verbose o2) by apply Hh.
  unfold fit_epoch, model_train, model_call, model_attr, update_model,
    bind, get_self, get_rng, set_self, set_rng, emit, lift, ret, raise.
  simpl. rewrite Hm.
  destruct (model o2) as [m|] eqn:Hm2; simpl;
    [| split; [reflexivity | split; [exact Hh | split; simpl; congruence]]].
  rewrite Hm, Hm2; simpl.
  pose proof (forward_related (set_training true m) x Hr) as Hfw.
  rewrite (backward_related (set_training true m) x
             (fun out => mse_loss out x) Hr).
  destruct (forward (set_training true m) r1 x) as [[x1 r1']|e1],
           (forward (set_training true m) r2 x) as [[x2 r2']|e2];
    simpl in Hfw; try contradiction; simpl.
  - destruct Hfw as [<- Hr'].
    destruct (Adam_step _ _ _) as [opt' p']. simpl.
    rewrite Hv. destruct (verbose o2); simpl.
    + destruct (roc_auc_score _ _) as [auc|e]; simpl;
        (split; [reflexivity | split; [exact Hh | split; [reflexivity|]]]);
        exact Hr'.
    + split; [reflexivity | split; [exact Hh | split; [reflexivity|]]].
      exact Hr'.
  - subst e2. split; [reflexivity | split; [exact Hh | split; [reflexivity|]]].
    exact Hr.
Qed.

Lemma for_each_agree {L} (body : Z -> L -> M L) :
  (forall i acc st1 st2, agree_on R st1 st2 ->
     snd (body i acc st1) = snd (body i acc st2) /\
     agree_on R (fst (body i acc st1)) (fst (body i acc st2))) ->
  forall l acc st1 st2, agree_on R st1 st2 ->
    snd (for_each l body acc st1) = snd (for_each l body acc st2) /\
    agree_on R (fst (for_each l body acc st1))
               (fst (for_each l body acc st2)).
Proof.
  intros Hb. induction l as [|i l IH]; intros acc st1 st2 Ha; simpl.
  - split; [reflexivity | exact Ha].
  - unfold bind. destruct (Hb i acc st1 st2 Ha) as [Hr Ha'].
    destruct (body i acc st1) as [s1 [a1|e1]],
             (body i acc st2) as [s2 [a2|e2]]; simpl in Hr, Ha';
      try discriminate Hr.
    + injection Hr as <-. apply IH. exact Ha'.
    + split; [exact Hr | exact Ha'].
Qed.

(** Two returning runs of [fit] from like-configured instances and library
    states with the same generator state end with the same network, the
    same scores and, again, the same generator state. *)
Lemma fit_agree G st1 st2 st1' st2' :
  same_hyperparameters (self st1) (self st2) ->
  R (rng st1) (rng st2) ->
  Forall (fun c => 0 < c) (build_channel_list (G_x G) (self st1)) ->
  process_frame ->
  fit G st1 = (st1', Ok tt) -> fit G st2 = (st2', Ok tt) ->
  model (self st1') = model (self st2') /\
  R (rng st1') (rng st2') /\
  decision_scores_ (self st1') = decision_scores_ (self st2').
Proof.
  intros Hh Hr Hpos PF.
  pose proof Hh as (H1 & H2 & H3 & H4 & H5 & H6 & H7 & H8 & H9).
  assert (Hcl : build_channel_list (G_x G) (self st1)
                = build_channel_list (G_x G) (self st2))
    by (unfold build_channel_list; rewrite H1, H2; reflexivity).
  rewrite !fit_eq. unfold MLP_new_for, ready, new_network, new_network_call.
  rewrite <- Hcl, <- H3, <- H4, <- H5, <- H6, <- H7.
  destruct HR as (_ & Hnew & _ & _).
  pose proof (Hnew (build_channel_list (G_x G) (self st1))
                   (dropout (self st1))
                   (match act (self st1) with
                    | Some _ => true | None => false end)
                   false (rng st1) (rng st2) Hpos Hr) as Hsame.
  destruct (MLP_new _ _ _ _ (rng st1)) as [[p r1]|e1],
           (MLP_new _ _ _ _ (rng st2)) as [[p2 r2]|e2];
    simpl in Hsame; try contradiction; try discriminate.
  destruct Hsame as [<- Hr'].
  destruct (Adam_new _ _ _) as [opt|e]; [|discriminate].
  unfold bind. intros F1 F2.
  match type of F1 with
  | context [for_each ?l ?b ?a ?s1] =>
      match type of F2 with
      | context [for_each l b a ?s2] =>
          assert (Hfe : snd (for_each l b a s1) = snd (for_each l b a s2)
                        /\ agree_on R (fst (for_each l b a s1))
                                      (fst (for_each l b a s2)))
            by (apply for_each_agree;
                [ intros; apply fit_epoch_agree; assumption
                | split; [exact Hh | split; [reflexivity | exact Hr']] ]);
          destruct Hfe as [Hres Hag];
          destruct (for_each l b a s1) as [s1' [loc1|e1]];
          destruct (for_each l b a s2) as [s2' [loc2|e2]]
      end
  end; simpl in Hres, Hag; try discriminate.
  injection Hres as <-.
  unfold store_scores in F1, F2.
  destruct (score loc1) as [s|]; [|discriminate].
  unfold bind, get_self, set_self, lift in F1, F2; simpl in F1, F2.
  destruct Hag as (_ & Hm & Hrng).
  destruct (_process_decision_scores (set_decision_scores_ s (self s1')))
    as [o1'|e] eqn:P1; [|discriminate].
  destruct (_process_decision_scores (set_decision_scores_ s (self s2')))
    as [o2'|e] eqn:P2; [|discriminate].
  inversion F1; inversion F2; subst; simpl.
  apply PF in P1, P2. simpl in P1, P2.
  destruct P1 as [M1 D1], P2 as [M2 D2].
  repeat split; congruence.
Qed.

Lemma decision_function_agree G st1 st2 :
  model (self st1) = model (self st2) -> R (rng st1) (rng st2) ->
  snd (decision_function G st1) = snd (decision_function G st2).
Proof.
  intros Hm Hr. destruct (model (self st2)) as [m|] eqn:Hm2.
  - pose proof (forward_related (set_training false m) (G_x G) Hr) as Hfw.
    destruct (forward (set_training false m) (rng st1) (G_x G))
      as [[x1 r1']|e1] eqn:F1,
      (forward (set_training false m) (rng st2) (G_x G))
      as [[x2 r2']|e2] eqn:F2; simpl in Hfw; try contradiction.
    + destruct Hfw as [<- _].
      rewrite (decision_function_run_ok G st1 Hm F1),
              (decision_function_run_ok G st2 Hm2 F2). reflexivity.
    + subst e2.
      rewrite (decision_function_run_err G st1 Hm F1),
              (decision_function_run_err G st2 Hm2 F2). reflexivity.
  - rewrite (decision_function_run_none G st1 Hm),
            (decision_function_run_none G st2 Hm2). reflexivity.
Qed.

Lemma decision_function_keeps_scores G st :
  decision_scores_ (self (fst (decision_function G st))) =
  decision_scores_ (self st).
Proof.
  destruct (model (self st)) as [m|] eqn:Hm.
  - destruct (forward (set_training false m) (rng st) (G_x G))
      as [[x_ r']|e] eqn:Hf.
    + rewrite (decision_function_run_ok G st Hm Hf). reflexivity.
    + rewrite (decision_function_run_err G st Hm Hf). reflexivity.
  - rewrite (decision_function_run_none G st Hm). reflexivity.
Qed.
End TwoRuns.

Section SeededRuns.
Context {C : Carriers} {E : Externals}.

(** C4, as the code has it.  Take a library that reads its state only
    through the seeded generator (relation [R]), and a setting in which
    every layer has positive width.  Then two complete runs of [fit]
    followed by [decision_function], after the same seed, on the same graph
    and on instances with the same hyperparameters, give the same decision
    scores -- whatever else the library state held, and whatever the two
    instances held before (an earlier network, earlier scores). *)
Theorem fit_then_score_seeded (R : Rng -> Rng -> Prop) (G : Data)
    (st1 st2 : State) (seed : Z) (h1 h2 : Rng) (s1 s2 : list F) :
  respects_generator R ->
  process_frame ->
  same_hyperparameters (self st1) (self st2) ->
  rng st1 = manual_seed seed h1 ->
  rng st2 = manual_seed seed h2 ->
  Forall (fun c => 0 < c) (build_channel_list (G_x G) (self st1)) ->
  snd (fit_then_score G st1) = Ok s1 ->
  snd (fit_then_score G st2) = Ok s2 ->
  s1 = s2 /\
  decision_scores_ (self (fst (fit_then_score G st1))) =
  decision_scores_ (self (fst (fit_then_score G st2))).
Proof.
  intros HR PF Hh Hr1 Hr2 Hpos. unfold fit_then_score, bind.
  assert (Hr : R (rng st1) (rng st2))
    by (rewrite Hr1, Hr2; apply HR).
  destruct (fit G st1) as [st1' [[]|e1]] eqn:F1; [|discriminate].
  destruct (fit G st2) as [st2' [[]|e2]] eqn:F2; [|discriminate].
  destruct (fit_agree HR G st1 st2 Hh Hr Hpos PF F1 F2)
    as (Hm & Hrng & Hds).
  intros R1 R2.
  pose proof (decision_function_agree HR G st1' st2' Hm Hrng) as Hsame.
  rewrite R1, R2 in Hsame. injection Hsame as <-.
  split; [reflexivity|].
  rewrite !decision_function_keeps_scores. exact Hds.
Qed.
End SeededRuns.

Section ScoreArithmetic.
Context {C : Carriers} {E : Externals}.

Lemma tsum_from_nonneg {OS : @OrderedScalar F F_scalar} (l : list F) :
  forall acc,
  Forall (fle fzero) l -> fle fzero acc -> fle fzero (fold_left fadd l acc).
Proof.
  induction l as [|a l IH]; intros acc Hl Hacc; simpl; [exact Hacc|].
  inversion Hl; subst. apply IH; [assumption|]. apply fle_add; assumption.
Qed.

Lemma sq_err_row_nonneg {OS : @OrderedScalar F F_scalar} (a : list F) :
  forall b,
  Forall finite a -> Forall finite b -> Forall (fle fzero) (map2 sq_err a b).
Proof.
  induction a as [|u a IH]; intros [|v b] Ha Hb; simpl; constructor.
  - inversion Ha; inversion Hb; subst. apply fle_square_diff; assumption.
  - inversion Ha; inversion Hb; subst. apply IH; assumption.
Qed.

Lemma scores_nonneg {OS : @OrderedScalar F F_scalar} (x_ x : Tensor F) :
  entries finite x_ -> entries finite x ->
  (0 < shape1 x_)%nat ->
  Forall (fle fzero) (mean_dim1 (mse_loss_none x_ x)).
Proof.
  unfold entries, mean_dim1, mse_loss_none, shape1. simpl.
  intros H_ Hx Hd.
  destruct (cols x_) as [|d]; [lia|].
  apply Forall_map. revert H_ Hx.
  generalize (rows x). induction (rows x_) as [|a R IH]; intros [|b R'];
    simpl; intros H_ Hx; constructor.
  - inversion H_; inversion Hx; subst.
    apply fle_div. apply tsum_from_nonneg; [|apply fle_zero].
    apply sq_err_row_nonneg; assumption.
  - inversion H_; inversion Hx; subst. apply IH; assumption.
Qed.

(** X15.  Anomaly scores are never negative: when the node features and
    the reconstruction are finite numbers (no infinity, no nan) and there is
    at least one feature dimension, every score [decision_function]
    returns is a number [>= 0] -- in any arithmetic with the laws of
    [OrderedScalar], which floating-point arithmetic obeys. *)
Theorem decision_function_scores_nonnegative
    {OS : @OrderedScalar F F_scalar}
    (G : Data) (st : State) (m : MLP) (x_ : Tensor F) (r' : Rng) :
  model (self st) = Some m ->
  forward (set_training false m) (rng st) (G_x G) = Ok (x_, r') ->
  entries finite (G_x G) -> entries finite x_ ->
  (0 < shape1 x_)%nat ->
  exists scores,
    snd (decision_function G st) = Ok scores /\
    Forall (fle fzero) scores.
Proof.
  intros Hm Hf Hx H_ Hd. rewrite (decision_function_run_ok G st Hm Hf).
  eexists. split; [reflexivity|]. apply scores_nonneg; assumption.
Qed.

Lemma tsum_zeros {XS : @ExactScalar F F_scalar} (l : list F) :
  Forall (eq fzero) l -> fold_left fadd l fzero = fzero.
Proof.
  induction l as [|a l IH]; intros Hl; simpl; [reflexivity|].
  inversion Hl; subst. rewrite fadd_zero. apply IH. assumption.
Qed.

Lemma sq_err_row_diag {XS : @ExactScalar F F_scalar} (a : list F) :
  Forall is_number a -> Forall (eq fzero) (map2 sq_err a a).
Proof.
  induction a as [|u a IH]; intros Ha; simpl; constructor.
  - inversion Ha; subst. unfold sq_err.
    rewrite fsub_diag by assumption. now rewrite fmul_zero.
  - inversion Ha; subst. apply IH. assumption.
Qed.

Lemma scores_of_exact_copy {XS : @ExactScalar F F_scalar} (x : Tensor F) :
  entries is_number x ->
  (0 < shape1 x)%nat ->
  mean_dim1 (mse_loss_none x x) = repeat fzero (shape0 x).
Proof.
  unfold entries, mean_dim1, mse_loss_none, shape0, shape1. simpl.
  intros Hx Hd. destruct (cols x) as [|d]; [lia|].
  induction (rows x) as [|a R IH]; simpl; [reflexivity|].
  inversion Hx; subst.
  unfold tsum at 1. rewrite (tsum_zeros (sq_err_row_diag H1)), fdiv_zero.
  f_equal. apply IH. assumption.
Qed.

(** X16.  A network that reproduces the features exactly gives every node
    the score zero, when the features are finite numbers (no infinity, no
    nan) and there is at least one feature dimension -- in any arithmetic
    with the laws of [ExactScalar], which floating-point arithmetic
    obeys. *)
Theorem perfect_reconstruction_scores_zero
    {XS : @ExactScalar F F_scalar}
    (G : Data) (st : State) (m : MLP) (r' : Rng) :
  model (self st) = Some m ->
  forward (set_training false m) (rng st) (G_x G) = Ok (G_x G, r') ->
  entries is_number (G_x G) ->
  (0 < shape1 (G_x G))%nat ->
  snd (decision_function G st) = Ok (repeat fzero (shape0 (G_x G))).
Proof.
  intros Hm Hf Hx Hd. rewrite (decision_function_run_ok G st Hm Hf). simpl.
  now rewrite scores_of_exact_copy.
Qed.
End ScoreArithmetic.

(** ** The executable instance: laws of the rationals and of the toy
    library *)
Module MoreToyFacts.
Import Toy Fixtures MoreFixtures.

Lemma Qred_nonneg (q : Q) : (0 <= q)%Q -> (0 <= Qred q)%Q.
Proof. intros Hq. rewrite Qred_correct. exact Hq. Qed.

Lemma Qsquare_nonneg (a : Q) : (0 <= a * a)%Q.
Proof.
  unfold Qle, Qmult. simpl. rewrite Z.mul_1_r. apply Z.square_nonneg.
Qed.

Lemma Q_ordered : @OrderedScalar Q Q_scalar.
Proof.
  refine {| finite := fun _ => True; fle := Qle |};
    unfold fzero, fmul, fsub, fadd, fdiv, of_nat, Q_scalar.
  - apply Qle_refl.
  - intros a b _ _. apply Qred_nonneg, Qsquare_nonneg.
  - intros a b Ha Hb. apply Qred_nonneg.
    rewrite <- (Qplus_0_l 0). apply Qplus_le_compat; assumption.
  - intros a n Ha. apply Qred_nonneg. unfold Qdiv.
    apply Qmult_le_0_compat; [exact Ha|]. apply Qinv_le_0_compat.
    unfold Qle. simpl. lia.
Defined.

Lemma Q_exact : @ExactScalar Q Q_scalar.
Proof.
  refine {| is_number := fun _ => True |};
    unfold fzero, fsub, fmul, fadd, fdiv, of_nat, Q_scalar.
  - intros a _. apply (Qred_complete (a - a) 0). unfold Qminus.
    apply Qplus_opp_r.
  - reflexivity.
  - reflexivity.
  - intros n. apply (Qred_complete (0 / inject_Z (Z.of_nat (S n))) 0).
    unfold Qdiv. apply Qmult_0_l.
Defined.

Lemma entries_trivial (t : Tensor Q) : entries (fun _ => True) t.
Proof.
  unfold entries. apply Forall_forall. intros row _.
  apply Forall_forall. auto.
Qed.

Lemma toy_respects_generator : respects_generator (@eq nat).
Proof.
  split; [|split; [|split]].
  - intros seed h1 h2. reflexivity.
  - intros cl dr rf bn r1 r2 _ <-.
    destruct (MLP_new cl dr rf bn r1) as [[p r]|e]; simpl; auto.
  - intros m r1 r2 x <-.
    destruct (forward m r1 x) as [[x_ r]|e]; simpl; auto.
  - intros m r1 r2 x L <-. reflexivity.
Qed.

Lemma toy_eval_keeps_rng : eval_keeps_rng.
Proof.
  intros m r x x_ r' Ht. cbn [forward externals]. unfold toy_forward.
  rewrite Ht. destruct (_ =? _); [|discriminate].
  intros H; inversion H. reflexivity.
Qed.

Lemma toy_forward_never_unfitted : forward_never_unfitted.
Proof.
  intros m r x. cbn [forward externals]. unfold toy_forward.
  destruct (_ =? _); discriminate.
Qed.
End MoreToyFacts.

(** ** The further properties on concrete inputs *)
Module MoreInstances.
Import Toy Fixtures ToyFacts MoreFixtures MoreToyFacts.

Lemma fit_constructor_failure_witness :
  fit G0 (custom 0 (5 # 1000) false 2) =
  ({| self := self (custom 0 (5 # 1000) false 2);
      rng := rng (custom 0 (5 # 1000) false 2);
      trace := trace (custom 0 (5 # 1000) false 2)
               ++ [new_network_call (G_x G0)
                     (self (custom 0 (5 # 1000) false 2))] |},
   Err (LibraryError "non-positive layer size")).
Proof.
  apply (fit_constructor_failure G0 (custom 0 (5 # 1000) false 2)).
  vm_compute. reflexivity.
Defined.

Lemma fit_optimizer_failure_witness :
  let st := custom 3 (-1) false 2 in
  fit G0 st = (ready G0 st (1 # 4)%Q 1%nat,
               Err (LibraryError "Invalid learning rate")) /\
  model (self (ready G0 st (1 # 4)%Q 1%nat))
  = Some (new_network (G_x G0) (self st) (1 # 4)%Q) /\
  decision_scores_ (self (ready G0 st (1 # 4)%Q 1%nat))
  = decision_scores_ (self st).
Proof.
  apply (fit_optimizer_failure G0 (custom 3 (-1) false 2)).
  - vm_compute. reflexivity.
  - vm_compute. reflexivity.
Defined.

Lemma fit_without_epochs_witness :
  let st := custom 3 (5 # 1000) false (-3) in
  fit G0 st = (ready G0 st (1 # 4)%Q 1%nat,
               Err (UnboundLocalError "score")) /\
  model (self (ready G0 st (1 # 4)%Q 1%nat))
  = Some (new_network (G_x G0) (self st) (1 # 4)%Q) /\
  decision_scores_ (self (ready G0 st (1 # 4)%Q 1%nat))
  = decision_scores_ (self st).
Proof.
  apply (fit_without_epochs G0 (custom 3 (5 # 1000) false (-3))
           (opt := 0%nat)).
  - vm_compute. discriminate.
  - vm_compute. reflexivity.
  - vm_compute. reflexivity.
Defined.

Lemma fit_metric_failure_witness :
  let st := start true 2 in
  let G := G_one_class in
  let net := new_network (G_x G) (self st) (1 # 4)%Q in
  let x_ := scale (1 # 4)%Q x0 in
  let step :=
    Adam_step 0%nat (1 # 4)%Q
      (backward net 1%nat (G_x G) (fun out => mse_loss out (G_x G))) in
  snd (fit G st) = Err (LibraryError "Only one class present in y_true") /\
  trace (fst (fit G st)) =
    trace (ready G st (1 # 4)%Q 1%nat)
    ++ [EvTrain; EvForward x_; EvZeroGrad; EvBackward (mse_loss x_ (G_x G));
        EvStep; EvAuc (G_y G) (mean_dim1 (mse_loss_none x_ (G_x G)))] /\
  model (self (fst (fit G st))) = Some (set_params (snd step) net) /\
  decision_scores_ (self (fst (fit G st))) = decision_scores_ (self st).
Proof.
  apply (fit_metric_failure G_one_class (start true 2) (r2 := 2%nat)).
  - reflexivity.
  - vm_compute. discriminate.
  - vm_compute. reflexivity.
  - vm_compute. reflexivity.
  - vm_compute. reflexivity.
  - vm_compute. reflexivity.
Defined.

Lemma decision_function_without_model_witness :
  decision_function G0 (start true 5) =
  (start true 5,
   Err (AttributeError "'NoneType' object has no attribute 'eval'")).
Proof.
  apply (decision_function_without_model G0 (start true 5)).
  vm_compute. reflexivity.
Defined.

Lemma decision_function_calls_witness :
  let st := fitted false 2 in
  let x_ := scale (params (network st)) x0 in
  decision_function G0 st =
  ({| self := set_model (Some (set_training false (network st))) (self st);
      rng := 3%nat;
      trace := trace st ++ [EvEval; EvForward x_] |},
   Ok (mean_dim1 (mse_loss_none x_ (G_x G0)))).
Proof.
  apply (decision_function_calls G0 (fitted false 2)).
  - vm_compute. reflexivity.
  - vm_compute. reflexivity.
Defined.

Lemma decision_function_forward_failure_witness :
  let st := fitted false 2 in
  decision_function G_wide st =
  ({| self := set_model (Some (set_training false (network st))) (self st);
      rng := rng st;
      trace := trace st ++ [EvEval] |},
   Err (LibraryError "mat1 and mat2 shapes cannot be multiplied")).
Proof.
  apply (decision_function_forward_failure G_wide (fitted false 2)).
  - vm_compute. reflexivity.
  - vm_compute. reflexivity.
Defined.

Lemma decision_function_never_unfitted_witness :
  check_is_fitted ["model"%string] (start true 5) = (start true 5, Ok tt) /\
  snd (decision_function G0 (start true 5)) <> Err NotFittedError.
Proof.
  destruct (decision_function_never_unfitted G0 (start true 5))
    as [Hguard Hnever].
  split; [exact Hguard|]. apply Hnever. exact toy_forward_never_unfitted.
Defined.

Lemma decision_function_repeatable_witness :
  let st1 := fst (decision_function G0 (fitted false 2)) in
  snd (decision_function G0 st1)
  = Ok [1805 # 2592; 6137 # 1296; 361 # 2592]%Q /\
  self (fst (decision_function G0 st1)) = self st1.
Proof.
  apply (decision_function_repeatable G0 (fitted false 2)
           (m := network (fitted false 2))).
  - exact toy_eval_keeps_rng.
  - vm_compute. reflexivity.
  - vm_compute. reflexivity.
Defined.

Lemma decision_function_ignores_labels_witness :
  decision_function G0 (fitted false 2)
  = decision_function G_relabelled (fitted false 2).
Proof.
  apply (decision_function_ignores_labels G0 G_relabelled). reflexivity.
Defined.

Lemma fit_ignores_labels_when_quiet_witness :
  fit G0 (start false 2) = fit G_relabelled (start false 2).
Proof.
  apply (fit_ignores_labels_when_quiet G0 G_relabelled).
  - reflexivity.
  - vm_compute. reflexivity.
Defined.

Lemma fit_failure_frame_witness :
  let st := start false 0 in
  same_but_model (self st) (self (fst (fit G0 st))) \/
  exists s mo,
    self (fst (fit G0 st)) = set_decision_scores_ s (set_model mo (self st))
    /\ _process_decision_scores
         (set_decision_scores_ s (set_model mo (self st)))
       = Err (UnboundLocalError "score").
Proof.
  apply (fit_failure_frame G0 (start false 0)). vm_compute. reflexivity.
Defined.

Lemma fit_installs_network_witness :
  exists m,
    model (self (fitted false 2)) = Some m /\
    channel_list m = build_channel_list (G_x G0) (self (start false 2)) /\
    mlp_dropout m = dropout (self (start false 2)) /\
    relu_first m = (match act (self (start false 2)) with
                    | Some _ => true | None => false end) /\
    batch_norm m = false /\
    training m = true.
Proof.
  apply (fit_installs_network G0 (start false 2) (st' := fitted false 2)).
  - unfold fitted. apply (Instances.returned (fit G0 (start false 2))).
    vm_compute. reflexivity.
  - exact toy_process_frame.
Defined.

Lemma decision_function_scores_nonnegative_witness :
  exists scores,
    snd (decision_function G0 (fitted false 2)) = Ok scores /\
    Forall (Qle 0) scores.
Proof.
  apply (decision_function_scores_nonnegative (C := carriers)
           (E := externals) (OS := Q_ordered)
           G0 (fitted false 2) (m := network (fitted false 2))
           (x_ := scale (params (network (fitted false 2))) x0)
           (r' := 3%nat)).
  - vm_compute. reflexivity.
  - vm_compute. reflexivity.
  - apply entries_trivial.
  - apply entries_trivial.
  - simpl. lia.
Defined.

Lemma perfect_reconstruction_scores_zero_witness :
  snd (decision_function G0 copying) = Ok (repeat 0%Q (shape0 (G_x G0))).
Proof.
  apply (perfect_reconstruction_scores_zero (C := carriers)
           (E := externals) (XS := Q_exact)
           G0 copying (m := network copying) (r' := 0%nat)).
  - vm_compute. reflexivity.
  - vm_compute. reflexivity.
  - apply entries_trivial.
  - simpl. lia.
Defined.

Lemma fit_then_score_seeded_witness :
  [1805 # 2592; 6137 # 1296; 361 # 2592]%Q
  = [1805 # 2592; 6137 # 1296; 361 # 2592]%Q
  /\ decision_scores_ (self (fst (fit_then_score G0 (start false 2)))) =
     decision_scores_ (self (fst (fit_then_score G0 (refit false 2)))).
Proof.
  apply (fit_then_score_seeded (C := carriers) (E := externals)
           (R := @eq nat) G0 (start false 2) (refit false 2)
           0 5%nat 9%nat).
  - exact toy_respects_generator.
  - exact toy_process_frame.
  - vm_compute. repeat split; reflexivity.
  - reflexivity.
  - reflexivity.
  - vm_compute. repeat constructor.
  - vm_compute. reflexivity.
  - vm_compute. reflexivity.
Defined.

Lemma fit_runs_every_epoch_witness :
  exists p r1 opt mE optE outs evs,
    MLP_new_for (G_x G0) (self (start false 2)) (rng (start false 2))
    = Ok (p, r1) /\
    Adam_new p (lr (self (start false 2)))
             (weight_decay (self (start false 2))) = Ok opt /\
    train_with (reconstruction_loss (G_x G0))
               (Z.to_nat (epoch (self (start false 2)))) (G_x G0)
               (new_network (G_x G0) (self (start false 2)) p) opt r1
    = Ok (mE, optE, rng (fitted false 2), outs) /\
    model (self (fitted false 2)) = Some mE /\
    Z.of_nat (length outs) = epoch (self (start false 2)) /\
    trace (fitted false 2) = trace (start false 2) ++ evs /\
    Z.of_nat (count is_EvTrain evs) = epoch (self (start false 2)) /\
    Z.of_nat (count is_EvForward evs) = epoch (self (start false 2)) /\
    Z.of_nat (count is_EvBackward evs) = epoch (self (start false 2)) /\
    Z.of_nat (count is_EvStep evs) = epoch (self (start false 2)).
Proof.
  apply (fit_runs_every_epoch G0 (start false 2) (st' := fitted false 2)).
  - unfold fitted. apply (Instances.returned (fit G0 (start false 2))).
    vm_compute. reflexivity.
  - exact toy_process_frame.
Defined.



Lemma fit_auc_when_verbose_witness :
  exists p r1 opt mE optE outs aucs evs,
    MLP_new_for (G_x G0) (self (start true 2)) (rng (start true 2))
    = Ok (p, r1) /\
    Adam_new p (lr (self (start true 2)))
             (weight_decay (self (start true 2))) = Ok opt /\
    train_with (reconstruction_loss (G_x G0))
               (Z.to_nat (epoch (self (start true 2)))) (G_x G0)
               (new_network (G_x G0) (self (start true 2)) p) opt r1
    = Ok (mE, optE, rng (fitted true 2), outs) /\
    length aucs = length outs /\
    trace (fitted true 2) = trace (start true 2) ++ evs /\
    evs =
      [new_network_call (G_x G0) (self (start true 2));
       EvAdam (lr (self (start true 2)))
              (weight_decay (self (start true 2)))]
      ++ concat (map2 (epoch_block (verbose (self (start true 2)))
                                   (G_x G0) (G_y G0))
                      (range (epoch (self (start true 2))))
                      (combine outs aucs)) /\
    if verbose (self (start true 2))
    then Forall2 (auc_of (G_x G0) (G_y G0)) outs aucs /\
         Z.of_nat (count is_EvAuc evs) = epoch (self (start true 2)) /\
         Z.of_nat (count is_EvPrint evs) = epoch (self (start true 2))
    else count is_EvAuc evs = 0%nat /\ count is_EvPrint evs = 0%nat.
Proof.
  apply (fit_auc_when_verbose G0 (start true 2) (st' := fitted true 2)).
  unfold fitted. apply (Instances.returned (fit G0 (start true 2))).
  vm_compute. reflexivity.
Defined.

Lemma fit_call_sequence_witness :
  exists p r1 opt mE optE outs aucs,
    MLP_new_for (G_x G0) (self (start true 2)) (rng (start true 2))
    = Ok (p, r1) /\
    Adam_new p (lr (self (start true 2)))
             (weight_decay (self (start true 2))) = Ok opt /\
    train_with (reconstruction_loss (G_x G0))
               (Z.to_nat (epoch (self (start true 2)))) (G_x G0)
               (new_network (G_x G0) (self (start true 2)) p) opt r1
    = Ok (mE, optE, rng (fitted true 2), outs) /\
    length outs = Z.to_nat (epoch (self (start true 2))) /\
    length aucs = Z.to_nat (epoch (self (start true 2))) /\
    (verbose (self (start true 2)) = true ->
     Forall2 (auc_of (G_x G0) (G_y G0)) outs aucs) /\
    trace (fitted true 2) =
      trace (start true 2)
      ++ [new_network_call (G_x G0) (self (start true 2));
          EvAdam (lr (self (start true 2)))
                 (weight_decay (self (start true 2)))]
      ++ concat (map2 (epoch_block (verbose (self (start true 2)))
                                   (G_x G0) (G_y G0))
                      (range (epoch (self (start true 2))))
                      (combine outs aucs)).
Proof.
  apply (fit_call_sequence G0 (start true 2) (st' := fitted true 2)).
  unfold fitted. apply (Instances.returned (fit G0 (start true 2))).
  vm_compute. reflexivity.
Defined.
End MoreInstances.

(** ** The same seed, different scores *)
Module LeakyInstances.

(** With [hid_dim = 0] the constructor leaves the parameters as memory had
    them: two new detectors with the same hyperparameters, fitted and
    scored on the same graph right after the same [manual_seed], return
    different scores. *)
Lemma same_seed_different_scores :
  @same_hyperparameters Leaky.carriers
    (@self Leaky.carriers (Leaky.seeded (1 # 2)))
    (@self Leaky.carriers (Leaky.seeded (3 # 4))) /\
  @rng Leaky.carriers (Leaky.seeded (1 # 2))
  = @manual_seed Leaky.carriers Leaky.externals 7 (0%nat, (1 # 2)%Q) /\
  @rng Leaky.carriers (Leaky.seeded (3 # 4))
  = @manual_seed Leaky.carriers Leaky.externals 7 (0%nat, (3 # 4)%Q) /\
  Leaky.run (1 # 2) = Ok [5 # 8; 17 # 4; 1 # 8]%Q /\
  Leaky.run (3 # 4) = Ok [1445 # 2592; 4913 # 1296; 289 # 2592]%Q /\
  Leaky.run (1 # 2) <> Leaky.run (3 # 4).
Proof.
  assert (H1 : Leaky.run (1 # 2) = Ok [5 # 8; 17 # 4; 1 # 8]%Q)
    by (vm_compute; reflexivity).
  assert (H2 : Leaky.run (3 # 4)
               = Ok [1445 # 2592; 4913 # 1296; 289 # 2592]%Q)
    by (vm_compute; reflexivity).
  split; [repeat split|]. split; [reflexivity|]. split; [reflexivity|].
  split; [exact H1|]. split; [exact H2|].
  rewrite H1, H2. discriminate.
Qed.
End LeakyInstances.
